(** * django-quickbooks: the credential store and the QuickBooks v3 client

    A shallow embedding of [quickbooks/models.py] and [quickbooks/api.py].

    - Python values that come out of [response.json()] are the inductive
      [jval]; a JSON object is a [gmap string jval], as [json.loads] builds
      a dict with unique keys.
    - A Python call that may raise is a [result]; an exception is its class
      and its arguments.
    - The signed HTTP session is a black box: every request is appended to a
      log, and the remote side is a function from the log (the request just
      sent is its last entry) to what [session.get]/[session.post] gives
      back, a response or a transport exception.
    - Strings are byte strings (Python 2 [str]). *)

From Stdlib Require Import ZArith String Ascii SpecFloat.
From stdpp Require Import base option list gmap strings fin_maps.

Open Scope Z_scope.
Open Scope string_scope.

#[local] Set Warnings "-register-all".

(** ** Python values and exceptions *)

Inductive jval : Type :=
  | JNull                                (* None *)
  | JBool (b : bool)
  | JInt (n : Z)
  | JFloat (f : spec_float)
  | JStr (s : string)
  | JArr (items : list jval)             (* list *)
  | JObj (fields : gmap string jval).    (* dict *)

Inductive exc_class : Type :=
  (* built-in *)
  | ValueError | KeyError | IndexError | TypeError | AttributeError
  | NameError | UnboundLocalError
  (* raised by the transport (requests) *)
  | RequestException
  (* api.py *)
  | QuickbooksError | TryLaterError | CommunicationError
  | AuthenticationFailure | ApiError | DuplicateItemError
  | DuplicateNameError | FeatureNotSupportedError
  (* models.py *)
  | MissingTokenException.

#[global] Instance exc_class_eq_dec : EqDecision exc_class.
Proof. solve_decision. Defined.

(** The [class X(Y)] lines of api.py. *)
Definition base_class (c : exc_class) : option exc_class :=
  match c with
  | TryLaterError | CommunicationError | AuthenticationFailure | ApiError =>
      Some QuickbooksError
  | DuplicateItemError | DuplicateNameError | FeatureNotSupportedError =>
      Some ApiError
  | UnboundLocalError => Some NameError
  | _ => None
  end.

(** An exception instance: its class and [e.args].  The message text of the
    built-in exceptions is left out; a [KeyError] carries the missing key. *)
Record exception : Type := Exc { exc_type : exc_class; exc_args : list jval }.

Inductive result (A : Type) : Type :=
  | Return (a : A)
  | Raise (e : exception).
Arguments Return {A} a.
Arguments Raise {A} e.

#[global] Instance result_ret : MRet result := @Return.
#[global] Instance result_bind : MBind result := λ A B f r,
  match r with
  | Return a => f a
  | Raise e => Raise e
  end.

Definition raise {A} (c : exc_class) (args : list jval) : result A :=
  Raise (Exc c args).

(** ** The operations on Python values that the sources use *)

(** [x == s] for a str literal [s]. *)
Definition py_eq_str (x : jval) (s : string) : bool :=
  match x with
  | JStr t => bool_decide (t = s)
  | _ => false
  end.

(** [s in x] for a str literal [s]: key membership on a dict, element
    membership on a list, substring on a string, TypeError otherwise. *)
Definition py_contains (s : string) (x : jval) : result bool :=
  match x with
  | JObj d => Return (bool_decide (is_Some (d !! s)))
  | JArr l => Return (existsb (λ y, py_eq_str y s) l)
  | JStr t => Return (bool_decide (is_Some (String.index 0 s t)))
  | _ => raise TypeError []
  end.

(** [x[k]] for a str key [k]. *)
Definition py_getitem (x : jval) (k : string) : result jval :=
  match x with
  | JObj d =>
      match d !! k with
      | Some v => Return v
      | None => raise KeyError [JStr k]
      end
  | _ => raise TypeError []
  end.

(** [x[i]] for an int index [i >= 0]. *)
Definition py_getitem_int (x : jval) (i : nat) : result jval :=
  match x with
  | JObj _ => raise KeyError [JInt (Z.of_nat i)]
  | JArr l =>
      match l !! i with
      | Some v => Return v
      | None => raise IndexError []
      end
  | JStr t =>
      match String.get i t with
      | Some c => Return (JStr (String c EmptyString))
      | None => raise IndexError []
      end
  | _ => raise TypeError []
  end.

(** [x.get(k, default)]: only a dict has the method. *)
Definition py_get (x : jval) (k : string) (dflt : jval) : result jval :=
  match x with
  | JObj d => Return (default dflt (d !! k))
  | _ => raise AttributeError []
  end.

(** The characters of a string, each a string of length one. *)
Fixpoint chars (s : string) : list jval :=
  match s with
  | EmptyString => []
  | String c rest => JStr (String c EmptyString) :: chars rest
  end.

(** What [for e in x] runs over: the elements of a list, the keys of a dict,
    the characters of a string; TypeError for a value that is not iterable.
    (A Python 2 dict yields its keys in an unspecified order; here it is the
    order of [map_to_list].) *)
Definition py_iter (x : jval) : result (list jval) :=
  match x with
  | JArr l => Return l
  | JObj d => Return (JStr <$> (map_to_list d).*1)
  | JStr t => Return (chars t)
  | _ => raise TypeError []
  end.

(** A dict key has to be hashable: a list or a dict is not. *)
Definition hashable (x : jval) : bool :=
  match x with
  | JArr _ | JObj _ => false
  | _ => true
  end.

(** ** quickbooks/models.py *)

Module Models.

(** An instance of the user model.  [is_authenticated] is what the method
    of that name returns. *)
Record User : Type := { pk : Z; is_authenticated : bool }.

Record QuickbooksToken : Type := {
  id : Z;                         (* the primary key that Django adds *)
  user : Z;                       (* foreign key to the user's pk *)
  access_token : string;
  access_token_secret : string;
  realm_id : string;
  data_source : string
}.

(** The argument of [find_quickbooks_token]: an instance of the user model;
    an object with an attribute [user] (a request; its user may be Django's
    [AnonymousUser], whose [is_authenticated] is false); or an object that
    is neither, such as an [AnonymousUser] passed as it is, which is not an
    instance of the user model and has no attribute [user]. *)
Inductive request_or_user : Type :=
  | AUser (u : User)
  | ARequest (request_user : User)
  | AnonymousUser.

(** [request_or_user] itself when [isinstance(request_or_user, User)], its
    attribute [user] otherwise: AttributeError without the attribute. *)
Definition user_of (request_or_user : request_or_user) : result User :=
  match request_or_user with
  | AUser u => Return u
  | ARequest u => Return u
  | AnonymousUser => raise AttributeError []
  end.

(** [QuickbooksToken.objects.filter(user=u)] over the rows of the table. *)
Definition objects_filter (table : list QuickbooksToken) (u : User)
  : list QuickbooksToken :=
  filter (λ t, user t = pk u) table.

(** [queryset[0]]: the first row in the order in which the database gives
    the rows of a query without an ordering, which is the order of the
    list. *)
Definition queryset_getitem0 (qs : list QuickbooksToken)
  : result QuickbooksToken :=
  match qs with
  | t :: _ => Return t
  | [] => raise IndexError []
  end.

(** The row of least primary key among [best] and [qs]; among rows of the
    same key, the earliest. *)
Fixpoint least_id (best : QuickbooksToken) (qs : list QuickbooksToken)
  : QuickbooksToken :=
  match qs with
  | [] => best
  | t :: rest =>
      if (id t <? id best)%Z then least_id t rest else least_id best rest
  end.

(** [queryset.first()]: a queryset without an ordering is ordered by the
    primary key, so this is the row of least [id]; [None] without a row. *)
Definition queryset_first (qs : list QuickbooksToken)
  : option QuickbooksToken :=
  match qs with
  | [] => None
  | t :: rest => Some (least_id t rest)
  end.

(** [try: body except IndexError: handler] *)
Definition except_IndexError {A} (body : result A) (handler : result A)
  : result A :=
  match body with
  | Raise (Exc IndexError _) => handler
  | r => r
  end.

Definition missing_token_message : string :=
  "No QuickBooks OAuth token exists for this user".

Section WithTable.
Variable table : list QuickbooksToken.

Definition find_quickbooks_token (request_or_user : request_or_user)
  : result (option QuickbooksToken) :=
  user ← user_of request_or_user;
  if negb (is_authenticated user) then Return None
  else
    except_IndexError
      (t ← queryset_getitem0 (objects_filter table user); Return (Some t))
      (Return None).

Definition get_quickbooks_token (request : request_or_user)
  : result QuickbooksToken :=
  token ← find_quickbooks_token request;
  match token with
  | None => raise MissingTokenException [JStr missing_token_message]
  | Some t => Return t
  end.
End WithTable.

End Models.

(** ** quickbooks/api.py *)

Module Api.

Definition APPCENTER_URL_BASE : string := "https://appcenter.intuit.com/api/v1/".

Definition QUICKBOOKS_DESKTOP_V3_URL_BASE : string :=
  "https://quickbooks.api.intuit.com/v3".
Definition QUICKBOOKS_ONLINE_V3_URL_BASE : string :=
  "https://quickbooks.api.intuit.com/v3".
Definition QUICKBOOKS_ONLINE_V3_SANDBOX_URL_BASE : string :=
  "https://sandbox-quickbooks.api.intuit.com/v3".

Definition ERRORS : gmap string exc_class :=
  {[ "5030" := FeatureNotSupportedError; "6240" := DuplicateNameError ]}.

(** [ERRORS.get(code)]: a key that cannot be hashed is a TypeError; a key
    that is not a string equals none of the two keys. *)
Definition ERRORS_get (code : jval) : result (option exc_class) :=
  match code with
  | JStr s => Return (ERRORS !! s)
  | JArr _ | JObj _ => raise TypeError []
  | _ => Return None
  end.

(** [ERRORS[code]] *)
Definition ERRORS_getitem (code : jval) : result exc_class :=
  found ← ERRORS_get code;
  match found with
  | Some cls => Return cls
  | None => raise KeyError [code]
  end.

(** *** The response classifier *)

(** What the code reads of a [requests] response: the status, the raw body,
    and what the method [json()] gives (the parsed body, or the exception of
    the parser). *)
Record Response : Type := {
  status_code : Z;
  content : string;
  json : result jval
}.

(** The body of [for error in errors], over the entries still to visit.  It
    ends with [Return tt] when the loop runs to its end. *)
Fixpoint scan_errors (resp_json : jval) (errors : list jval) : result unit :=
  match errors with
  | [] => Return tt
  | error :: rest =>
      code ← py_getitem error "code";
      found ← ERRORS_get code;
      match found with
      | Some _ =>
          code' ← py_getitem error "code";
          cls ← ERRORS_getitem code';
          raise cls [resp_json]
      | None => scan_errors resp_json rest
      end
  end.

Definition error_check (response : Response) : result jval :=
  (if (status_code response =? 400)%Z then
     resp_json ← json response;
     has_fault ← py_contains "Fault" resp_json;
     if has_fault : bool then
       fault ← py_getitem resp_json "Fault";
       errors ← py_get fault "Error" (JArr []);
       entries ← py_iter errors;
       scan_errors resp_json entries;;
       raise ApiError [resp_json]
     else Return tt
   else Return tt);;
  (if (status_code response =? 401)%Z then raise AuthenticationFailure []
   else Return tt);;
  json response.

(** *** Strings: [str.lower], [str.format], [urllib.quote] *)

Definition lower_char (c : ascii) : ascii :=
  let n := N_of_ascii c in
  if ((65 <=? n) && (n <=? 90))%N then ascii_of_N (n + 32) else c.

Fixpoint lower (s : string) : string :=
  match s with
  | EmptyString => EmptyString
  | String c rest => String (lower_char c) (lower rest)
  end.

Definition always_safe : string :=
  "ABCDEFGHIJKLMNOPQRSTUVWXYZabcdefghijklmnopqrstuvwxyz0123456789_.-".

Fixpoint in_string (c : ascii) (s : string) : bool :=
  match s with
  | EmptyString => false
  | String d rest => Ascii.eqb c d || in_string c rest
  end.

Definition hex_digit (n : N) : ascii :=
  default "0"%char (String.get (N.to_nat n) "0123456789ABCDEF").

(** One entry of the table [_safe_map] of urllib: the character itself when
    it is safe, [%XX] with upper-case hexadecimal digits otherwise. *)
Definition quote_char (safe : string) (c : ascii) : string :=
  let i := N_of_ascii c in
  if (i <? 128)%N && in_string c (always_safe ++ safe)
  then String c EmptyString
  else String "%" (String (hex_digit (i / 16)) (String (hex_digit (i mod 16)) EmptyString)).

Fixpoint quote_with (safe : string) (s : string) : string :=
  match s with
  | EmptyString => EmptyString
  | String c rest => quote_char safe c ++ quote_with safe rest
  end.

(** [urllib.quote(s)] of Python 2, with its default [safe='/'].  The early
    returns of the library (empty string, string of safe characters only)
    give the same string as the character map. *)
Definition quote (s : string) : string := quote_with "/" s.

(** *** The session and the client *)

Inductive http_method : Type := GET | POST.

Record OAuth1Session : Type := {
  client_key : string;
  client_secret : string;
  resource_owner_key : string;
  resource_owner_secret : string;
  headers : list (string * string)
}.

Record request : Type := {
  req_session : OAuth1Session;      (* the session that signs and sends *)
  req_method : http_method;
  req_url : string;
  req_data : option string
}.

Record QuickbooksApi : Type := {
  token : Models.QuickbooksToken;
  session : OAuth1Session;
  realm_id : string;
  data_source : string;
  url_base : string;
  level : jval
}.

Definition get_request (s : OAuth1Session) (url : string) : request :=
  {| req_session := s; req_method := GET; req_url := url; req_data := None |}.

Definition post_request (s : OAuth1Session) (url data : string) : request :=
  {| req_session := s; req_method := POST; req_url := url;
     req_data := Some data |}.

(** A method of the client: it reads and extends the log of the requests
    sent so far, and returns or raises. *)
Definition client (A : Type) : Type := list request → result A * list request.

#[global] Instance client_ret : MRet client := λ A a log, (Return a, log).
#[global] Instance client_bind : MBind client := λ A B f m log,
  match m log with
  | (Return a, log') => f a log'
  | (Raise e, log') => (Raise e, log')
  end.

Definition lift {A} (r : result A) : client A := λ log, (r, log).

(** [try: body except: pass], for a body that computes nothing. *)
Definition except_pass (body : client unit) : client unit := λ log,
  match body log with
  | (_, log') => (Return tt, log')
  end.

(** The dict that [__init__] indexes with the data source of the token. *)
Definition url_bases (sandbox : bool) : gmap string string :=
  let online_url_base :=
    if sandbox then QUICKBOOKS_ONLINE_V3_SANDBOX_URL_BASE
    else QUICKBOOKS_ONLINE_V3_URL_BASE in
  {[ "QBD" := QUICKBOOKS_DESKTOP_V3_URL_BASE; "QBO" := online_url_base ]}.

(** The first argument of [__init__]. *)
Inductive owner_or_token : Type :=
  | Owner (u : Models.User)
  | Token (t : Models.QuickbooksToken)
  | Other.

(** A name used as a value in the body of a method: a local variable, or
    else a NameError (the module binds no global that a method body reads
    as a response). *)
Definition load_name (locals : gmap string Response) (name : string)
  : result Response :=
  match locals !! name with
  | Some v => Return v
  | None => raise NameError []
  end.

(** The loop [for pairing in name_values] of [__init__], over the pairings
    still to visit and the value of [self.level] so far.  It gives the value
    of [self.level] at the point where the loop ends or raises. *)
Fixpoint find_level (name_values : list jval) (level : jval)
  : jval * result unit :=
  match name_values with
  | [] => (level, Return tt)
  | pairing :: rest =>
      match py_getitem pairing "Name" with
      | Raise e => (level, Raise e)
      | Return name =>
          if py_eq_str name "OfferingSku" then
            match py_getitem pairing "Value" with
            | Raise e => (level, Raise e)
            | Return v => find_level rest v
            end
          else find_level rest level
      end
  end.

Section Client.

(** The remote side and the transport: given the log, whose last entry is
    the request being sent, a response or the exception of the transport. *)
Variable remote : list request → result Response.

(** [settings.QUICKBOOKS['CONSUMER_KEY']] and ['CONSUMER_SECRET']. *)
Variables CONSUMER_KEY CONSUMER_SECRET : string.

(** The rows of the table of [QuickbooksToken]. *)
Variable table : list Models.QuickbooksToken.

Definition send (r : request) : client Response := λ log,
  (remote (log ++ [r])%list, (log ++ [r])%list).

Definition session_get (s : OAuth1Session) (url : string) : client Response :=
  send (get_request s url).

Definition session_post (s : OAuth1Session) (url : string) (data : string)
  : client Response :=
  send (post_request s url data).

Definition read (self : QuickbooksApi) (object_type entity_id : string)
  : client jval :=
  let constructed_url :=
    url_base self ++ "/company/" ++ realm_id self ++ "/" ++ object_type
      ++ "/" ++ entity_id in
  response ← session_get (session self) (lower constructed_url);
  lift (error_check response).

Definition query (self : QuickbooksApi) (query : string) : client jval :=
  let constructed_url :=
    url_base self ++ "/company/" ++ realm_id self ++ "/query?query="
      ++ quote query in
  response ← session_get (session self) constructed_url;
  lift (error_check response).

Definition create (self : QuickbooksApi) (object_type object_body : string)
  : client jval :=
  let constructed_url :=
    url_base self ++ "/company/" ++ realm_id self ++ "/" ++ object_type in
  response ← session_post (session self) (lower constructed_url) object_body;
  lift (error_check response).

Definition delete (self : QuickbooksApi) (object_type object_body : string)
  : client jval :=
  let constructed_url :=
    url_base self ++ "/company/" ++ realm_id self ++ "/" ++ object_type
      ++ "?operation=delete" in
  response ← session_post (session self) (lower constructed_url) object_body;
  lift (error_check response).

(** The last line reads the name [request], where the other methods read
    their local [response]. *)
Definition update (self : QuickbooksApi) (object_type object_body : string)
  : client jval :=
  let constructed_url :=
    url_base self ++ "/company/" ++ realm_id self ++ "/" ++ object_type
      ++ "?operation=update" in
  response ← session_post (session self) (lower constructed_url) object_body;
  request ← lift (load_name {[ "response" := response ]} "request");
  lift (error_check request).

(** The [for] loop of [_appcenter_request]: [content] is unbound ([None]
    here) until the first pass. *)
Fixpoint appcenter_loop (self : QuickbooksApi) (full_url : string)
  (passes : nat) (content : option string) : client (option string) :=
  match passes with
  | O => mret content
  | S k =>
      response ← session_get (session self) full_url;
      appcenter_loop self full_url k (Some (Api.content response))
  end.

Definition _appcenter_request (self : QuickbooksApi) (url : string)
  (retries : Z) : client string :=
  let full_url := APPCENTER_URL_BASE ++ url in
  content ← appcenter_loop self full_url (Z.to_nat (retries + 1)) None;
  match content with
  | Some c => mret c
  | None => lift (raise UnboundLocalError [])
  end.

Definition app_menu (self : QuickbooksApi) (retries : Z) : client string :=
  _appcenter_request self "account/appmenu" retries.

Definition disconnect (self : QuickbooksApi) : client string :=
  _appcenter_request self "connection/disconnect" 3.

(** The [try] block of [__init__] with its [except: pass]: whatever is
    raised, the object is kept, with the level assigned so far. *)
Definition probe_level (self : QuickbooksApi) : client QuickbooksApi := λ log,
  let body : client jval :=
    resp ← query self "SELECT * FROM CompanyInfo";
    name_values ← lift (a ← py_getitem resp "QueryResponse";
                        b ← py_getitem a "CompanyInfo";
                        c ← py_getitem_int b 0;
                        py_getitem c "NameValue");
    pairings ← lift (py_iter name_values);
    mret (find_level pairings (level self)).1 in
  match body log with
  | (Return lv, log') =>
      (Return {| token := token self; session := session self;
                 realm_id := realm_id self; data_source := data_source self;
                 url_base := url_base self; level := lv |}, log')
  | (Raise _, log') => (Return self, log')
  end.

Definition __init__ (owner_or_token : owner_or_token)
  (sandbox get_level : bool) : client QuickbooksApi :=
  found ← lift (match owner_or_token with
                | Owner u =>
                    Return (Models.queryset_first
                              (Models.objects_filter table u))
                | Token t => Return (Some t)
                | Other =>
                    raise ValueError
                      [JStr "API must be initialized with either a QuickbooksToken or User"]
                end);
  (* [self.token.access_token] when [first()] gave None *)
  tok ← lift (match found with
              | Some t => Return t
              | None => raise AttributeError []
              end);
  let session :=
    {| client_key := CONSUMER_KEY; client_secret := CONSUMER_SECRET;
       resource_owner_key := Models.access_token tok;
       resource_owner_secret := Models.access_token_secret tok;
       headers := [("content-type", "application/json");
                   ("accept", "application/json")] |} in
  base ← lift (match url_bases sandbox !! Models.data_source tok with
               | Some b => Return b
               | None => raise KeyError [JStr (Models.data_source tok)]
               end);
  let self :=
    {| token := tok; session := session; realm_id := Models.realm_id tok;
       data_source := Models.data_source tok; url_base := base;
       level := JNull |} in
  if get_level then probe_level self else mret self.

End Client.

End Api.

(** ** Entries of [Fault.Error], as the classifier sees them *)

(** The value under ['code'] of an entry that is a dict carrying the key. *)
Definition entry_code (error : jval) : option jval :=
  match error with
  | JObj d => d !! "code"
  | _ => None
  end.

Definition carries_code (error : jval) : bool :=
  bool_decide (is_Some (entry_code error)).

(** The exception class the table maps the entry to, if any. *)
Definition recognized_as (error : jval) : option exc_class :=
  match entry_code error with
  | Some (JStr s) => Api.ERRORS !! s
  | _ => None
  end.

(** An entry whose code is there, can be looked up, and is not in the
    table. *)
Definition unrecognized (error : jval) : bool :=
  match entry_code error with
  | Some code =>
      match Api.ERRORS_get code with
      | Return None => true
      | _ => false
      end
  | None => false
  end.

(** The bodies of the second testable property of the classifier, in its
    words: an object whose [Fault.Error] codes are all unrecognized, or whose
    list is empty (or not there), or whose [Fault] is missing. *)
Definition codes_all_unrecognized (o : gmap string jval) : bool :=
  match o !! "Fault" with
  | None => true
  | Some (JObj f) =>
      match f !! "Error" with
      | None => true
      | Some (JArr es) => forallb unrecognized es
      | Some _ => false
      end
  | Some _ => false
  end.

(** ** Concrete responses, credentials and remote sides *)

Definition response_of (status : Z) (body : jval) : Api.Response :=
  {| Api.status_code := status; Api.content := ""; Api.json := Return body |}.

Definition fault_body (errors : list jval) : jval :=
  JObj {[ "Fault" := JObj {[ "Error" := JArr errors ]} ]}.

Definition error_entry (code message : string) : jval :=
  JObj {[ "code" := JStr code; "Message" := JStr message ]}.

Definition entry_without_code : jval := JObj {[ "Message" := JStr "m" ]}.

(** A response that cannot be parsed as JSON. *)
Definition html_response (status : Z) : Api.Response :=
  {| Api.status_code := status; Api.content := "<html></html>";
     Api.json := raise ValueError [] |}.

Definition credential (source : string) : Models.QuickbooksToken :=
  {| Models.id := 2; Models.user := 7; Models.access_token := "key";
     Models.access_token_secret := "secret"; Models.realm_id := "123";
     Models.data_source := source |}.

(** The client that [__init__] builds from [credential "QBO"], with the
    consumer key ["ck"] and secret ["cs"], outside the sandbox and without
    the probe of the level. *)
Definition client_online : Api.QuickbooksApi :=
  {| Api.token := credential "QBO";
     Api.session :=
       {| Api.client_key := "ck"; Api.client_secret := "cs";
          Api.resource_owner_key := "key";
          Api.resource_owner_secret := "secret";
          Api.headers := [("content-type", "application/json");
                          ("accept", "application/json")] |};
     Api.realm_id := "123"; Api.data_source := "QBO";
     Api.url_base := "https://quickbooks.api.intuit.com/v3";
     Api.level := JNull |}.

(** The request that [app_menu] sends. *)
Definition appmenu_request (self : Api.QuickbooksApi) : Api.request :=
  Api.get_request (Api.session self)
    (Api.APPCENTER_URL_BASE ++ "account/appmenu").

(** The answer of [remote_ok] to the request number [i], counted from 0. *)
Definition response_ok (i : nat) : Api.Response :=
  {| Api.status_code := 200;
     Api.content := String (ascii_of_nat (48 + S i)) EmptyString;
     Api.json := Return (JObj ∅) |}.

(** A remote side that answers every request with status 200, an empty JSON
    object, and the number of the request as raw content. *)
Definition remote_ok (log : list Api.request) : result Api.Response :=
  Return {| Api.status_code := 200;
            Api.content := String (ascii_of_nat (48 + length log)) EmptyString;
            Api.json := Return (JObj ∅) |}.

(** A transport that raises on every call. *)
Definition remote_down (log : list Api.request) : result Api.Response :=
  raise RequestException [].

(** ** Notions used to state further properties *)

Fixpoint string_forall (P : ascii → bool) (s : string) : bool :=
  match s with
  | EmptyString => true
  | String c rest => P c && string_forall P rest
  end.

(** An upper-case ASCII letter, the characters that [str.lower] changes. *)
Definition is_upper (c : ascii) : bool :=
  let n := N_of_ascii c in ((65 <=? n) && (n <=? 90))%N.

Definition no_upper (s : string) : bool :=
  string_forall (λ c, negb (is_upper c)) s.

(** The characters that [urllib.quote] leaves as they are. *)
Definition safe_char (c : ascii) : bool :=
  (N_of_ascii c <? 128)%N && Api.in_string c (Api.always_safe ++ "/").

(** The characters that can occur in the result of [urllib.quote]. *)
Definition url_char (c : ascii) : bool := safe_char c || Ascii.eqb c "%".

Definition hex_value (c : ascii) : N :=
  let n := N_of_ascii c in
  if (n <? 58)%N then (n - 48)%N else (n - 55)%N.

(** A left inverse of [quote], used to show that [quote] loses nothing: it
    reads [%XX] as the character of code [XX] and keeps the rest. *)
Fixpoint unquote (s : string) : string :=
  match s with
  | EmptyString => EmptyString
  | String c rest =>
      if Ascii.eqb c "%" then
        match rest with
        | String h1 (String h2 rest') =>
            String (ascii_of_N (16 * hex_value h1 + hex_value h2))
                   (unquote rest')
        | _ => String c (unquote rest)
        end
      else String c (unquote rest)
  end.

(** The object that [__init__] has built when it reaches the probe of the
    level. *)
Definition fresh_client (consumer_key consumer_secret : string)
  (tok : Models.QuickbooksToken) (base : string) : Api.QuickbooksApi :=
  {| Api.token := tok;
     Api.session :=
       {| Api.client_key := consumer_key;
          Api.client_secret := consumer_secret;
          Api.resource_owner_key := Models.access_token tok;
          Api.resource_owner_secret := Models.access_token_secret tok;
          Api.headers := [("content-type", "application/json");
                          ("accept", "application/json")] |};
     Api.realm_id := Models.realm_id tok;
     Api.data_source := Models.data_source tok;
     Api.url_base := base;
     Api.level := JNull |}.

(** [self] after [self.level = lv]. *)
Definition with_level (self : Api.QuickbooksApi) (lv : jval)
  : Api.QuickbooksApi :=
  {| Api.token := Api.token self; Api.session := Api.session self;
     Api.realm_id := Api.realm_id self;
     Api.data_source := Api.data_source self;
     Api.url_base := Api.url_base self; Api.level := lv |}.

(** The request of the probe of the level. *)
Definition level_request (self : Api.QuickbooksApi) : Api.request :=
  Api.get_request (Api.session self)
    (Api.url_base self ++ "/company/" ++ Api.realm_id self
     ++ "/query?query=SELECT%20%2A%20FROM%20CompanyInfo").

(** The request that [disconnect] sends. *)
Definition disconnect_request (self : Api.QuickbooksApi) : Api.request :=
  Api.get_request (Api.session self)
    (Api.APPCENTER_URL_BASE ++ "connection/disconnect").

(** A name/value pairing of the company information, and the body of the
    answer that carries a value as its list of pairings. *)
Definition pairing (p : jval * jval) : jval :=
  JObj {[ "Name" := p.1; "Value" := p.2 ]}.

Definition company_info (name_values : jval) : jval :=
  JObj {[ "QueryResponse" :=
            JObj {[ "CompanyInfo" :=
                      JArr [JObj {[ "NameValue" := name_values ]}] ]} ]}.

(** The value of [self.level] after the [try] block of [__init__], given its
    value before and the answer of [query]: the value at the point where the
    block ends or raises in its loop; an exception before the loop is an
    exception here. *)
Definition company_level (level0 : jval) (answer : jval) : result jval :=
  a ← py_getitem answer "QueryResponse";
  b ← py_getitem a "CompanyInfo";
  c ← py_getitem_int b 0;
  name_values ← py_getitem c "NameValue";
  pairings ← py_iter name_values;
  Return (Api.find_level pairings level0).1.

(** The value of the last pairing named [OfferingSku], [None] without one. *)
Definition last_sku (pairs : list (jval * jval)) : jval :=
  default JNull
    (last (snd <$> List.filter (λ p, py_eq_str p.1 "OfferingSku") pairs)).

Definition is_object (x : jval) : bool :=
  match x with
  | JObj _ => true
  | _ => false
  end.

(** The classes that [error_check] can raise on a body that parses. *)
Definition error_check_classes : list exc_class :=
  [KeyError; TypeError; AttributeError; ApiError; FeatureNotSupportedError;
   DuplicateNameError; AuthenticationFailure].

(** A credential of another user. *)
Definition other_credential : Models.QuickbooksToken :=
  {| Models.id := 1; Models.user := 8; Models.access_token := "key8";
     Models.access_token_secret := "secret8"; Models.realm_id := "456";
     Models.data_source := "QBD" |}.

(** A second credential of the user of [credential], added later. *)
Definition later_credential : Models.QuickbooksToken :=
  {| Models.id := 3; Models.user := 7; Models.access_token := "key3";
     Models.access_token_secret := "secret3"; Models.realm_id := "789";
     Models.data_source := "QBD" |}.

(** Pairings as in an answer about the company. *)
Definition sku_pairs : list (jval * jval) :=
  [(JStr "OfferingSku", JStr "QuickBooks Online Simple");
   (JStr "CompanyType", JStr "Other");
   (JStr "OfferingSku", JStr "QuickBooks Online Plus")].

(** A remote side that gives the same response to every request. *)
Definition remote_const (r : Api.Response) (log : list Api.request)
  : result Api.Response := Return r.

(** A remote side that answers the first [k] requests like [remote_ok] and
    fails from then on. *)
Definition remote_ok_until (k : nat) (log : list Api.request)
  : result Api.Response :=
  if (length log <=? k)%nat then remote_ok log
  else raise RequestException [].

(** * Properties *)

Import Api.

(** ** The table of known codes *)

Lemma ERRORS_lookup (s : string) (cls : exc_class) :
  ERRORS !! s = Some cls ↔
  (s = "5030" ∧ cls = FeatureNotSupportedError) ∨
  (s = "6240" ∧ cls = DuplicateNameError).
Proof.
  unfold ERRORS. split.
  - intros H. apply lookup_insert_Some in H as [[<- <-]|[_ H]]; [by left|].
    apply lookup_singleton_Some in H as [<- <-]. by right.
  - intros [[-> ->]|[-> ->]]; reflexivity.
Qed.

Lemma ERRORS_get_Some (code : jval) (cls : exc_class) :
  ERRORS_get code = Return (Some cls) →
  ∃ s, code = JStr s ∧ ERRORS !! s = Some cls.
Proof.
  destruct code; simpl; try discriminate.
  intros [= H]. eauto.
Qed.

(** ** The loop over the error entries *)

Section Scan.
Variable resp_json : jval.

Lemma scan_errors_unrecognized_cons (error : jval) (rest : list jval) :
  unrecognized error = true →
  scan_errors resp_json (error :: rest) = scan_errors resp_json rest.
Proof.
  unfold unrecognized, entry_code. intros H.
  destruct error as [| | | | | |d]; try discriminate.
  simpl. destruct (d !! "code") as [code|]; [|discriminate]. simpl.
  destruct (ERRORS_get code) as [[?|]|]; try discriminate. reflexivity.
Qed.

Lemma scan_errors_skip (pre rest : list jval) :
  forallb unrecognized pre = true →
  scan_errors resp_json (pre ++ rest) = scan_errors resp_json rest.
Proof.
  induction pre as [|e pre IH]; [done|].
  intros [He Hpre]%andb_prop. rewrite <- app_comm_cons.
  rewrite scan_errors_unrecognized_cons by done. auto.
Qed.

Lemma scan_errors_unrecognized (es : list jval) :
  forallb unrecognized es = true → scan_errors resp_json es = Return tt.
Proof.
  intros H. rewrite <- (app_nil_r es). by rewrite scan_errors_skip.
Qed.

Lemma scan_errors_recognized (error : jval) (rest : list jval)
  (cls : exc_class) :
  recognized_as error = Some cls →
  scan_errors resp_json (error :: rest) = raise cls [resp_json].
Proof.
  unfold recognized_as, entry_code. intros H.
  destruct error as [| | | | | |d]; try discriminate.
  simpl. destruct (d !! "code") as [[| | | |s| |]|]; try discriminate.
  simpl. unfold ERRORS_getitem. simpl. rewrite H. reflexivity.
Qed.

(** With a ['code'] on every entry, the loop never fails on a key. *)
Lemma scan_errors_no_KeyError (es : list jval) (args : list jval) :
  forallb carries_code es = true →
  scan_errors resp_json es ≠ raise KeyError args.
Proof.
  induction es as [|e es IH]; [done|].
  intros [He Hes]%andb_prop.
  unfold carries_code, entry_code in He. apply bool_decide_eq_true in He.
  destruct e as [| | | | | |d]; try (by destruct He).
  destruct He as [code Hcode]. simpl. rewrite Hcode. simpl.
  destruct (ERRORS_get code) as [[cls|]|exn] eqn:Hget; simpl.
  - unfold ERRORS_getitem. rewrite Hget. simpl.
    apply ERRORS_get_Some in Hget as (s & _ & Hs).
    apply ERRORS_lookup in Hs as [[_ ->]|[_ ->]]; discriminate.
  - auto.
  - destruct code; simpl in Hget; try discriminate; injection Hget as <-;
      discriminate.
Qed.

End Scan.

(** ** The classifier on a 400 response with a [Fault] *)

Lemma error_check_400_Fault (response : Response) (o f : gmap string jval)
  (entries : list jval) :
  status_code response = 400 →
  json response = Return (JObj o) →
  o !! "Fault" = Some (JObj f) →
  py_iter (default (JArr []) (f !! "Error")) = Return entries →
  error_check response =
    (scan_errors (JObj o) entries;; raise ApiError [JObj o]).
Proof.
  intros Hstatus Hjson Hfault Hiter. unfold error_check.
  rewrite Hstatus, Hjson. simpl. rewrite Hfault. simpl. rewrite Hiter. simpl.
  destruct (scan_errors (JObj o) entries); reflexivity.
Qed.

(** C3. A response with status 401 makes [error_check] raise
    [AuthenticationFailure], whatever its body is (the body is not even
    parsed). *)
Theorem error_check_401 (response : Response) :
  status_code response = 401 →
  error_check response = raise AuthenticationFailure [].
Proof.
  intros H. unfold error_check. rewrite H. reflexivity.
Qed.

Lemma error_check_401_witness :
  error_check (html_response 401) = raise AuthenticationFailure [].
Proof.
  apply (error_check_401 (html_response 401)). reflexivity.
Defined.

(** C5. A response whose status is neither 400 nor 401 (404 and 500
    included) raises nothing in [error_check], which returns the parsed JSON
    body of the response as it is. *)
Theorem error_check_other_status (response : Response) (body : jval) :
  status_code response ≠ 400 →
  status_code response ≠ 401 →
  json response = Return body →
  error_check response = Return body.
Proof.
  intros H400 H401 Hjson. unfold error_check.
  apply Z.eqb_neq in H400, H401. rewrite H400, H401. exact Hjson.
Qed.

Lemma error_check_other_status_witness :
  error_check (response_of 500 (fault_body [error_entry "6240" "m"]))
  = Return (fault_body [error_entry "6240" "m"]).
Proof.
  apply (error_check_other_status
           (response_of 500 (fault_body [error_entry "6240" "m"])));
    [discriminate | discriminate | reflexivity].
Defined.

(** C2, as the code has it.  On a response with status 400 whose body is an
    object with a [Fault] envelope, every entry of [Fault.Error] carrying a
    code that the table does not know (the list may be empty, or not there),
    [error_check] raises [ApiError] with the whole parsed body.  When the
    [Fault] envelope is missing the classifier raises nothing and returns
    the parsed body. *)
Theorem error_check_400_unrecognized (response : Response)
  (o : gmap string jval) :
  status_code response = 400 →
  json response = Return (JObj o) →
  codes_all_unrecognized o = true →
  error_check response =
    match o !! "Fault" with
    | Some _ => raise ApiError [JObj o]
    | None => Return (JObj o)
    end.
Proof.
  intros Hstatus Hjson Hcodes. unfold codes_all_unrecognized in Hcodes.
  destruct (o !! "Fault") as [fault|] eqn:Hfault.
  - destruct fault as [| | | | | |f]; try discriminate.
    assert (∃ es, py_iter (default (JArr []) (f !! "Error")) = Return es
                  ∧ forallb unrecognized es = true) as (es & Hiter & Hes).
    { destruct (f !! "Error") as [[| | | | |es|]|]; try discriminate;
        eexists; split; try reflexivity; done. }
    rewrite (error_check_400_Fault response o f es) by done.
    by rewrite scan_errors_unrecognized.
  - unfold error_check. rewrite Hstatus, Hjson. simpl. rewrite Hfault.
    reflexivity.
Qed.

Lemma error_check_400_unrecognized_witness :
  error_check (response_of 400 (fault_body [error_entry "10000" "m"]))
  = raise ApiError [fault_body [error_entry "10000" "m"]].
Proof.
  exact (error_check_400_unrecognized
           (response_of 400 (fault_body [error_entry "10000" "m"]))
           {[ "Fault" := JObj {[ "Error" := JArr [error_entry "10000" "m"] ]} ]}
           eq_refl eq_refl eq_refl).
Defined.

(** C2 as it is written fails on a 400 response without a [Fault]: the body
    [{}] is returned, no [ApiError] is raised. *)
Lemma error_check_400_without_Fault :
  status_code (response_of 400 (JObj ∅)) = 400 ∧
  json (response_of 400 (JObj ∅)) = Return (JObj ∅) ∧
  codes_all_unrecognized ∅ = true ∧
  error_check (response_of 400 (JObj ∅)) = Return (JObj ∅) ∧
  error_check (response_of 400 (JObj ∅)) ≠ raise ApiError [JObj ∅].
Proof.
  repeat split; discriminate.
Qed.

(** C4, as the code has it.  On a response with status 400 whose body is an
    object with a [Fault] envelope and an [Error] list, if an entry has a
    code of the table (["5030"] for [FeatureNotSupportedError], ["6240"] for
    [DuplicateNameError]) and every entry before it is an object with a
    hashable code that the table does not know, [error_check] raises the
    class mapped from that entry, with the whole parsed body. *)
Theorem error_check_400_first_match (response : Response)
  (o f d : gmap string jval) (pre post : list jval) (code : string)
  (cls : exc_class) :
  status_code response = 400 →
  json response = Return (JObj o) →
  o !! "Fault" = Some (JObj f) →
  f !! "Error" = Some (JArr (pre ++ JObj d :: post)) →
  forallb unrecognized pre = true →
  d !! "code" = Some (JStr code) →
  ERRORS !! code = Some cls →
  error_check response = raise cls [JObj o] ∧
  ((code = "5030" ∧ cls = FeatureNotSupportedError) ∨
   (code = "6240" ∧ cls = DuplicateNameError)).
Proof.
  intros Hstatus Hjson Hfault Herror Hpre Hcode Hcls. split.
  - rewrite (error_check_400_Fault response o f (pre ++ JObj d :: post));
      [|done|done|done|by rewrite Herror].
    rewrite scan_errors_skip by done.
    rewrite (scan_errors_recognized _ _ _ cls); [done|].
    unfold recognized_as. simpl. by rewrite Hcode.
  - by apply ERRORS_lookup.
Qed.

Lemma error_check_400_first_match_witness :
  error_check
    (response_of 400
       (fault_body [error_entry "10000" "x"; error_entry "6240" "m";
                    error_entry "5030" "y"]))
  = raise DuplicateNameError
      [fault_body [error_entry "10000" "x"; error_entry "6240" "m";
                   error_entry "5030" "y"]].
Proof.
  refine (proj1 (error_check_400_first_match
    (response_of 400
       (fault_body [error_entry "10000" "x"; error_entry "6240" "m";
                    error_entry "5030" "y"]))
    {[ "Fault" := JObj {[ "Error" := JArr [error_entry "10000" "x";
         error_entry "6240" "m"; error_entry "5030" "y"] ]} ]}
    {[ "Error" := JArr [error_entry "10000" "x"; error_entry "6240" "m";
         error_entry "5030" "y"] ]}
    {[ "code" := JStr "6240"; "Message" := JStr "m" ]}
    [error_entry "10000" "x"] [error_entry "5030" "y"]
    "6240" DuplicateNameError _ _ _ _ _ _ _)); reflexivity.
Defined.

(** C4 as it is written fails when an entry without ['code'] comes before
    the entry with a known code: the lookup [error['code']] raises
    [KeyError] before the known code is reached. *)
Lemma error_check_400_match_after_codeless :
  let body := fault_body [entry_without_code; error_entry "6240" "m"] in
  status_code (response_of 400 body) = 400 ∧
  json (response_of 400 body) = Return body ∧
  recognized_as entry_without_code = None ∧
  recognized_as (error_entry "6240" "m") = Some DuplicateNameError ∧
  error_check (response_of 400 body) = raise KeyError [JStr "code"] ∧
  error_check (response_of 400 body) ≠ raise DuplicateNameError [body].
Proof.
  repeat split; discriminate.
Qed.

(** C10. There is a 400 response with a [Fault] envelope and a non-empty
    [Error] list, one entry of which has no ['code'], on which [error_check]
    raises [KeyError] (neither [ApiError] nor a mapped class); and when
    every entry of the list carries a ['code'], [error_check] never raises
    [KeyError]. *)
Theorem error_check_400_code_required :
  (∃ (response : Response) (o f d : gmap string jval) (es : list jval),
      status_code response = 400 ∧
      json response = Return (JObj o) ∧
      o !! "Fault" = Some (JObj f) ∧
      f !! "Error" = Some (JArr es) ∧
      JObj d ∈ es ∧ d !! "code" = None ∧
      error_check response = raise KeyError [JStr "code"]) ∧
  (∀ (response : Response) (o f : gmap string jval) (es args : list jval),
      status_code response = 400 →
      json response = Return (JObj o) →
      o !! "Fault" = Some (JObj f) →
      f !! "Error" = Some (JArr es) →
      forallb carries_code es = true →
      error_check response ≠ raise KeyError args).
Proof.
  split.
  - exists (response_of 400 (fault_body [entry_without_code])),
      {[ "Fault" := JObj {[ "Error" := JArr [entry_without_code] ]} ]},
      {[ "Error" := JArr [entry_without_code] ]},
      {[ "Message" := JStr "m" ]}, [entry_without_code].
    repeat split; try reflexivity. apply list_elem_of_here.
  - intros response o f es args Hstatus Hjson Hfault Herror Hes.
    rewrite (error_check_400_Fault response o f es);
      [|done|done|done|by rewrite Herror].
    pose proof (scan_errors_no_KeyError (JObj o) es args Hes) as Hscan.
    destruct (scan_errors (JObj o) es) as [[]|e]; [discriminate|].
    simpl. intros [= ->]. by apply Hscan.
Qed.

Lemma error_check_400_code_required_witness :
  error_check (response_of 400 (fault_body [error_entry "10000" "m"]))
  ≠ raise KeyError [JStr "code"].
Proof.
  apply (proj2 error_check_400_code_required
           (response_of 400 (fault_body [error_entry "10000" "m"]))
           {[ "Fault" := JObj {[ "Error" := JArr [error_entry "10000" "m"] ]} ]}
           {[ "Error" := JArr [error_entry "10000" "m"] ]}
           [error_entry "10000" "m"] [JStr "code"]); reflexivity.
Defined.

(** ** The credential store *)

Section Store.
Variable table : list Models.QuickbooksToken.

Lemma objects_filter_nil (u : Models.User) :
  (∀ t, t ∈ table → Models.user t ≠ Models.pk u) →
  Models.objects_filter table u = [].
Proof.
  intros Hnone. unfold Models.objects_filter.
  destruct (filter _ table) as [|t rest] eqn:Hfilter; [done|].
  assert (t ∈ filter (λ t, Models.user t = Models.pk u) table) as Ht
    by (rewrite Hfilter; apply list_elem_of_here).
  apply list_elem_of_filter in Ht as [Heq Hin]. by destruct (Hnone t Hin).
Qed.

Lemma objects_filter_cons (u : Models.User) (t0 : Models.QuickbooksToken) :
  t0 ∈ table → Models.user t0 = Models.pk u →
  ∃ t rest, Models.objects_filter table u = t :: rest ∧
            t ∈ table ∧ Models.user t = Models.pk u.
Proof.
  intros Hin Heq. unfold Models.objects_filter.
  destruct (filter _ table) as [|t rest] eqn:Hfilter.
  - by destruct (filter_nil_not_elem_of _ table t0 Hfilter Heq).
  - exists t, rest. split; [done|].
    assert (t ∈ filter (λ t, Models.user t = Models.pk u) table) as Ht
      by (rewrite Hfilter; apply list_elem_of_here).
    apply list_elem_of_filter in Ht as [? ?]. done.
Qed.

(** C9, as the code has it.  For a user-model instance, or an object with a
    [user] attribute, whose identity is not authenticated or has no stored
    credential, [find_quickbooks_token] returns [None] and does not raise,
    and [get_quickbooks_token] raises [MissingTokenException]; for an
    authenticated identity with a stored credential both return a credential
    of that identity. *)
Theorem find_and_get_quickbooks_token (x : Models.request_or_user)
  (u : Models.User) :
  x = Models.AUser u ∨ x = Models.ARequest u →
  ((Models.is_authenticated u = false ∨
    (∀ t, t ∈ table → Models.user t ≠ Models.pk u)) →
   Models.find_quickbooks_token table x = Return None ∧
   Models.get_quickbooks_token table x =
     raise MissingTokenException [JStr Models.missing_token_message]) ∧
  (Models.is_authenticated u = true →
   (∃ t, t ∈ table ∧ Models.user t = Models.pk u) →
   ∃ t, t ∈ table ∧ Models.user t = Models.pk u ∧
        Models.find_quickbooks_token table x = Return (Some t) ∧
        Models.get_quickbooks_token table x = Return t).
Proof.
  intros Hx.
  assert (Models.user_of x = Return u) as Huser by (by destruct Hx as [->| ->]).
  split.
  - intros Hcase.
    assert (Models.find_quickbooks_token table x = Return None) as Hfind.
    { unfold Models.find_quickbooks_token. rewrite Huser. simpl.
      destruct (Models.is_authenticated u) eqn:Hauth; [|done].
      destruct Hcase as [?|Hnone]; [done|]. simpl.
      by rewrite (objects_filter_nil u Hnone). }
    split; [done|]. unfold Models.get_quickbooks_token. by rewrite Hfind.
  - intros Hauth (t0 & Hin & Heq).
    destruct (objects_filter_cons u t0 Hin Heq) as (t & rest & Hf & ? & ?).
    exists t.
    assert (Models.find_quickbooks_token table x = Return (Some t)) as Hfind.
    { unfold Models.find_quickbooks_token. rewrite Huser. simpl.
      rewrite Hauth. simpl. by rewrite Hf. }
    repeat split; try done.
    unfold Models.get_quickbooks_token. by rewrite Hfind.
Qed.

End Store.

Lemma find_and_get_quickbooks_token_witness :
  (Models.find_quickbooks_token [credential "QBO"]
     (Models.ARequest {| Models.pk := 8; Models.is_authenticated := true |})
   = Return None ∧
   Models.get_quickbooks_token [credential "QBO"]
     (Models.ARequest {| Models.pk := 8; Models.is_authenticated := true |})
   = raise MissingTokenException [JStr Models.missing_token_message]) ∧
  (∃ t, t ∈ [credential "QBO"] ∧ Models.user t = 7 ∧
        Models.find_quickbooks_token [credential "QBO"]
          (Models.AUser {| Models.pk := 7; Models.is_authenticated := true |})
        = Return (Some t) ∧
        Models.get_quickbooks_token [credential "QBO"]
          (Models.AUser {| Models.pk := 7; Models.is_authenticated := true |})
        = Return t).
Proof.
  split.
  - apply (proj1 (find_and_get_quickbooks_token [credential "QBO"]
      (Models.ARequest {| Models.pk := 8; Models.is_authenticated := true |})
      {| Models.pk := 8; Models.is_authenticated := true |}
      (or_intror eq_refl))).
    right. intros t Ht. apply list_elem_of_singleton in Ht as ->.
    simpl. lia.
  - apply (proj2 (find_and_get_quickbooks_token [credential "QBO"]
      (Models.AUser {| Models.pk := 7; Models.is_authenticated := true |})
      {| Models.pk := 7; Models.is_authenticated := true |}
      (or_introl eq_refl))).
    + reflexivity.
    + exists (credential "QBO"). split; [apply list_elem_of_here|reflexivity].
Defined.

(** C9 as it is written fails for an unauthenticated identity that is passed
    as it is: an [AnonymousUser] is not an instance of the user model and
    has no attribute [user], so [find_quickbooks_token] raises
    [AttributeError] where the claim has it return [None], and
    [get_quickbooks_token] raises [AttributeError] and not
    [MissingTokenException]. *)
Lemma find_quickbooks_token_anonymous :
  Models.find_quickbooks_token [credential "QBO"] Models.AnonymousUser
  = raise AttributeError [] ∧
  Models.find_quickbooks_token [credential "QBO"] Models.AnonymousUser
  ≠ Return None ∧
  Models.get_quickbooks_token [credential "QBO"] Models.AnonymousUser
  = raise AttributeError [] ∧
  Models.get_quickbooks_token [credential "QBO"] Models.AnonymousUser
  ≠ raise MissingTokenException [JStr Models.missing_token_message].
Proof.
  repeat split; discriminate.
Qed.

(** ** Strings: [str.lower] and [urllib.quote] *)

Lemma string_app_cons (x : ascii) (a b : string) :
  String x a ++ b = String x (a ++ b).
Proof. reflexivity. Qed.

Lemma string_app_nil (b : string) : EmptyString ++ b = b.
Proof. reflexivity. Qed.

Lemma string_app_assoc (a b c : string) : (a ++ b) ++ c = a ++ (b ++ c).
Proof.
  induction a as [|x a IH]; [done|]. by rewrite !string_app_cons, IH.
Qed.

Lemma string_app_length (a b : string) :
  String.length (a ++ b) = (String.length a + String.length b)%nat.
Proof.
  induction a as [|x a IH]; [done|]. rewrite string_app_cons. simpl.
  by rewrite IH.
Qed.

Lemma string_forall_app (P : ascii → bool) (a b : string) :
  string_forall P (a ++ b) = string_forall P a && string_forall P b.
Proof.
  induction a as [|x a IH]; [done|]. rewrite string_app_cons. simpl.
  by rewrite IH, andb_assoc.
Qed.

Lemma lower_app (a b : string) : lower (a ++ b) = lower a ++ lower b.
Proof.
  induction a as [|x a IH]; [done|]. rewrite string_app_cons. simpl.
  by rewrite IH.
Qed.

Lemma lower_char_not_upper (c : ascii) : is_upper (lower_char c) = false.
Proof. destruct c as [[] [] [] [] [] [] [] []]; reflexivity. Qed.

Lemma lower_char_fixed (c : ascii) : is_upper c = false → lower_char c = c.
Proof. unfold is_upper, lower_char. by intros ->. Qed.

Lemma no_upper_lower (s : string) : no_upper (lower s) = true.
Proof.
  induction s as [|c s IH]; [done|].
  unfold no_upper in *. simpl. by rewrite lower_char_not_upper, IH.
Qed.

Lemma lower_fixed (s : string) : no_upper s = true → lower s = s.
Proof.
  unfold no_upper. induction s as [|c s IH]; [done|]. simpl.
  intros [Hc Hs]%andb_prop. apply negb_true_iff in Hc.
  by rewrite lower_char_fixed, IH.
Qed.

Lemma quote_cons (c : ascii) (s : string) :
  quote (String c s) = quote_char "/" c ++ quote s.
Proof. reflexivity. Qed.

Lemma quote_app (a b : string) : quote (a ++ b) = quote a ++ quote b.
Proof.
  induction a as [|x a IH]; [done|].
  by rewrite string_app_cons, !quote_cons, IH, string_app_assoc.
Qed.

Lemma quote_char_safe (c : ascii) :
  safe_char c = true → quote_char "/" c = String c EmptyString.
Proof. unfold safe_char, quote_char. by intros ->. Qed.

Lemma quote_char_unsafe (c : ascii) :
  safe_char c = false →
  quote_char "/" c
  = String "%" (String (hex_digit (N_of_ascii c / 16))
                  (String (hex_digit (N_of_ascii c mod 16)) EmptyString)).
Proof. unfold safe_char, quote_char. by intros ->. Qed.

Lemma quote_char_url_chars (c : ascii) :
  string_forall url_char (quote_char "/" c) = true.
Proof. destruct c as [[] [] [] [] [] [] [] []]; reflexivity. Qed.

Lemma quote_char_length (c : ascii) :
  (1 ≤ String.length (quote_char "/" c) ≤ 3)%nat.
Proof.
  destruct (safe_char c) eqn:Hc.
  - rewrite quote_char_safe by done. simpl. lia.
  - rewrite quote_char_unsafe by done. simpl. lia.
Qed.

Lemma unquote_quote_char (c : ascii) (rest : string) :
  unquote (quote_char "/" c ++ rest) = String c (unquote rest).
Proof. destruct c as [[] [] [] [] [] [] [] []]; reflexivity. Qed.

Lemma unquote_quote (s : string) : unquote (quote s) = s.
Proof.
  induction s as [|c s IH]; [done|].
  by rewrite quote_cons, unquote_quote_char, IH.
Qed.

Lemma quote_length (s : string) :
  (String.length s ≤ String.length (quote s) ≤ 3 * String.length s)%nat.
Proof.
  induction s as [|c s IH]; [simpl; lia|].
  rewrite quote_cons, string_app_length.
  change (String.length (String c s)) with (S (String.length s)).
  pose proof (quote_char_length c). lia.
Qed.

Lemma quote_url_chars (s : string) : string_forall url_char (quote s) = true.
Proof.
  induction s as [|c s IH]; [done|].
  by rewrite quote_cons, string_forall_app, quote_char_url_chars, IH.
Qed.

Lemma quote_safe (s : string) : string_forall safe_char s = true → quote s = s.
Proof.
  induction s as [|c s IH]; [done|]. simpl.
  intros [Hc Hs]%andb_prop. by rewrite quote_cons, quote_char_safe, IH.
Qed.

Lemma quote_fixed_safe (s : string) :
  quote s = s → string_forall safe_char s = true.
Proof.
  induction s as [|c s IH]; [done|]. rewrite quote_cons. simpl.
  destruct (safe_char c) eqn:Hc.
  - rewrite quote_char_safe by done. rewrite string_app_cons, string_app_nil.
    intros [= H]. auto.
  - rewrite quote_char_unsafe by done.
    rewrite !string_app_cons, string_app_nil. intros [= _ H].
    pose proof (quote_length s) as Hlen.
    rewrite <- H in Hlen at 1. simpl in Hlen. lia.
Qed.

(** ** The client *)

Section ClientFacts.
Variable remote : list request → result Response.
Variables CONSUMER_KEY CONSUMER_SECRET : string.
Variable table : list Models.QuickbooksToken.

(** A request followed by the classifier: one entry more in the log, and
    the outcome of the classifier on what the remote side answers. *)
Lemma send_then_check (r : request) (log : list request) :
  (response ← send remote r; lift (error_check response)) log
  = (remote (log ++ [r])%list ≫= error_check, (log ++ [r])%list).
Proof.
  unfold mbind at 1, client_bind, send, lift.
  destruct (remote (log ++ [r])%list); reflexivity.
Qed.

Lemma read_sends (self : QuickbooksApi) (object_type entity_id : string)
  (log : list request) :
  let sent :=
    get_request (session self)
      (lower (url_base self ++ "/company/" ++ realm_id self ++ "/"
              ++ object_type ++ "/" ++ entity_id)) in
  read remote self object_type entity_id log
  = (remote (log ++ [sent])%list ≫= error_check, (log ++ [sent])%list).
Proof. apply send_then_check. Qed.

(** C8. [query q] sends one GET request, to the URL made of the base, the
    path [/company/{tenant}/query] and [?query=] followed by the URL-encoding
    of [q], and no part of the URL is lower-cased.  The encoding is applied
    once: the text sent has only letters, digits and the characters
    [_ . - / %], decoding it once gives [q] back, and it is [q] itself
    exactly when [q] needs no encoding.  What the remote side answers goes
    through [error_check]. *)
Theorem query_sends (self : QuickbooksApi) (q : string) (log : list request) :
  let encoded := quote q in
  let sent :=
    get_request (session self)
      (url_base self ++ "/company/" ++ realm_id self ++ "/query?query="
       ++ encoded) in
  query remote self q log
  = (remote (log ++ [sent])%list ≫= error_check, (log ++ [sent])%list) ∧
  string_forall url_char encoded = true ∧
  unquote encoded = q ∧
  (encoded = q ↔ string_forall safe_char q = true).
Proof.
  intros encoded sent. split; [apply send_then_check|].
  split; [apply quote_url_chars|]. split; [apply unquote_quote|].
  split; [apply quote_fixed_safe|apply quote_safe].
Qed.

Lemma create_sends (self : QuickbooksApi) (object_type object_body : string)
  (log : list request) :
  let sent :=
    post_request (session self)
      (lower (url_base self ++ "/company/" ++ realm_id self ++ "/"
              ++ object_type)) object_body in
  create remote self object_type object_body log
  = (remote (log ++ [sent])%list ≫= error_check, (log ++ [sent])%list).
Proof. apply send_then_check. Qed.

Lemma delete_sends (self : QuickbooksApi) (object_type object_body : string)
  (log : list request) :
  let sent :=
    post_request (session self)
      (lower (url_base self ++ "/company/" ++ realm_id self ++ "/"
              ++ object_type ++ "?operation=delete")) object_body in
  delete remote self object_type object_body log
  = (remote (log ++ [sent])%list ≫= error_check, (log ++ [sent])%list).
Proof. apply send_then_check. Qed.

(** [update] sends its POST request like [delete], and then raises: what
    the remote side answers never reaches the classifier. *)
Lemma update_sends (self : QuickbooksApi) (object_type object_body : string)
  (log : list request) :
  let sent :=
    post_request (session self)
      (lower (url_base self ++ "/company/" ++ realm_id self ++ "/"
              ++ object_type ++ "?operation=update")) object_body in
  update remote self object_type object_body log
  = (remote (log ++ [sent])%list ≫= (λ _, raise NameError []),
     (log ++ [sent])%list).
Proof.
  intros sent.
  unfold update, session_post, send, lift, mbind at 1 2, client_bind.
  fold sent. destruct (remote _); reflexivity.
Qed.

Lemma update_never_returns (self : QuickbooksApi)
  (object_type object_body : string) (log : list request) (v : jval) :
  (update remote self object_type object_body log).1 ≠ Return v.
Proof.
  rewrite update_sends. simpl. destruct (remote _); discriminate.
Qed.

(** *** The app-center requests *)

Lemma appcenter_loop_runs (self : QuickbooksApi) (full_url : string)
  (passes : nat) :
  ∀ (log : list request) (content : option string) (resp : nat → Response),
    (∀ i, (i < passes)%nat →
          remote (log ++ replicate (S i)
                    (get_request (session self) full_url))%list
          = Return (resp i)) →
    appcenter_loop remote self full_url passes content log
    = (Return (match passes with
               | O => content
               | S j => Some (Api.content (resp j))
               end),
       (log ++ replicate passes (get_request (session self) full_url))%list).
Proof.
  induction passes as [|k IH]; intros log content resp Hresp.
  - simpl. by rewrite app_nil_r.
  - simpl. unfold mbind, client_bind, session_get, send.
    pose proof (Hresp O ltac:(lia)) as H0. simpl in H0. rewrite H0.
    rewrite (IH _ _ (λ i, resp (S i))).
    + rewrite <- app_assoc. simpl. by destruct k.
    + intros i Hi. rewrite <- app_assoc. simpl. apply (Hresp (S i)). lia.
Qed.

(** C6, as the code has it.  For [retries = n >= 0], when the transport
    gives a response to each request, [app_menu] sends the app-center
    request [n + 1] times in a row, whatever the responses are, and returns
    the content of the last response. *)
Theorem app_menu_sends (self : QuickbooksApi) (retries : Z)
  (log : list request) (resp : nat → Response) :
  (0 ≤ retries)%Z →
  (∀ i, (i ≤ Z.to_nat retries)%nat →
        remote (log ++ replicate (S i) (appmenu_request self))%list
        = Return (resp i)) →
  app_menu remote self retries log
  = (Return (content (resp (Z.to_nat retries))),
     (log ++ replicate (Z.to_nat retries + 1) (appmenu_request self))%list).
Proof.
  intros Hretries Hresp. unfold app_menu, _appcenter_request.
  replace (Z.to_nat (retries + 1)) with (S (Z.to_nat retries)) by lia.
  unfold mbind, client_bind.
  rewrite (appcenter_loop_runs self _ (S (Z.to_nat retries)) log None resp).
  - by rewrite Nat.add_1_r.
  - intros i Hi. apply Hresp. lia.
Qed.

(** *** Construction *)

Lemma url_bases_QBO (sandbox : bool) :
  url_bases sandbox !! "QBO"
  = Some (if sandbox then QUICKBOOKS_ONLINE_V3_SANDBOX_URL_BASE
          else QUICKBOOKS_ONLINE_V3_URL_BASE).
Proof.
  unfold url_bases. rewrite lookup_insert_ne by discriminate.
  apply lookup_singleton_eq.
Qed.

(** The probe of the level always gives the client back, with the same
    session, tenant and base. *)
Lemma probe_level_returns (self : QuickbooksApi) (log : list request) :
  ∃ self' log',
    probe_level remote self log = (Return self', log') ∧
    session self' = session self ∧ realm_id self' = realm_id self ∧
    url_base self' = url_base self.
Proof.
  unfold probe_level.
  match goal with |- context [match ?b with _ => _ end] =>
    destruct b as [[lv|e] log'] end.
  - eexists _, log'. repeat split.
  - exists self, log'. repeat split.
Qed.

(** C7, as the code has it.  For a client constructed from a credential
    with data source ["QBO"] (online) and tenant ["123"], outside the
    sandbox, [read "Customer" "42"] sends a GET request to exactly
    [https://quickbooks.api.intuit.com/v3/company/123/customer/42]: the path
    [{base}/company/{tenant}/{type}/{id}], lower-cased. *)
Theorem read_customer_42 (tok : Models.QuickbooksToken) (get_level : bool)
  (log : list request) :
  Models.data_source tok = "QBO" →
  Models.realm_id tok = "123" →
  ∃ self log',
    __init__ remote CONSUMER_KEY CONSUMER_SECRET table (Token tok) false
      get_level log = (Return self, log') ∧
    (read remote self "Customer" "42" log').2
    = (log' ++ [get_request (session self)
         "https://quickbooks.api.intuit.com/v3/company/123/customer/42"])%list.
Proof.
  intros Hsource Hrealm.
  unfold __init__, mbind, client_bind, lift.
  rewrite Hsource, url_bases_QBO, Hrealm.
  destruct get_level.
  - match goal with |- context [probe_level remote ?s log] =>
      destruct (probe_level_returns s log)
        as (self' & log' & -> & Hsession & Hrealm' & Hbase) end.
    exists self', log'. split; [done|].
    rewrite read_sends. simpl. rewrite Hrealm', Hbase. reflexivity.
  - eexists _, log. split; [reflexivity|].
    rewrite read_sends. reflexivity.
Qed.

End ClientFacts.

(** ** The client on concrete remote sides *)

Lemma remote_ok_replicate (r : request) (i : nat) :
  remote_ok ([] ++ replicate (S i) r)%list = Return (response_ok i).
Proof.
  unfold remote_ok, response_ok. simpl. by rewrite length_replicate.
Qed.

Lemma app_menu_sends_witness :
  app_menu remote_ok client_online 3 []
  = (Return "4", replicate 4 (appmenu_request client_online)).
Proof.
  apply (app_menu_sends remote_ok client_online 3 [] response_ok).
  - lia.
  - intros i _. apply remote_ok_replicate.
Defined.

(** C6 as it is written fails for [retries = 3]: four requests are sent, not
    three, and the content returned is that of the fourth response. *)
Lemma app_menu_3_sends_4 :
  (app_menu remote_ok client_online 3 []).2
  = replicate 4 (appmenu_request client_online) ∧
  length (app_menu remote_ok client_online 3 []).2 ≠ 3%nat ∧
  (app_menu remote_ok client_online 3 []).1 = Return "4".
Proof.
  split; [reflexivity|]. split; [discriminate|reflexivity].
Qed.

Lemma read_customer_42_witness :
  ∃ self log',
    __init__ remote_ok "ck" "cs" [] (Token (credential "QBO")) false true []
    = (Return self, log') ∧
    (read remote_ok self "Customer" "42" log').2
    = (log' ++ [get_request (session self)
         "https://quickbooks.api.intuit.com/v3/company/123/customer/42"])%list.
Proof.
  apply (read_customer_42 remote_ok "ck" "cs" [] (credential "QBO") true []);
    reflexivity.
Defined.

(** C7 as it is written fails: with the data source ["online"] the
    construction raises [KeyError], with or without the probe of the level,
    and constructing then reading sends no request at all. *)
Lemma construct_online_raises_KeyError :
  __init__ remote_ok "ck" "cs" [] (Token (credential "online")) false true []
  = (raise KeyError [JStr "online"], []) ∧
  __init__ remote_ok "ck" "cs" [] (Token (credential "online")) false false []
  = (raise KeyError [JStr "online"], []) ∧
  (self ← __init__ remote_ok "ck" "cs" [] (Token (credential "online"))
            false true;
   read remote_ok self "Customer" "42") []
  = (raise KeyError [JStr "online"], []).
Proof.
  repeat split.
Qed.

(** C1 fails on the code.  [update "Customer" "{}"] sends its POST request
    and then raises [NameError], although the remote side answers 200 with a
    JSON body; [delete], on the same input, returns the parsed body. *)
Theorem update_raises_NameError :
  update remote_ok client_online "Customer" "{}" []
  = (raise NameError [],
     [post_request (session client_online)
        "https://quickbooks.api.intuit.com/v3/company/123/customer?operation=update"
        "{}"]) ∧
  delete remote_ok client_online "Customer" "{}" []
  = (Return (JObj ∅),
     [post_request (session client_online)
        "https://quickbooks.api.intuit.com/v3/company/123/customer?operation=delete"
        "{}"]).
Proof.
  split; reflexivity.
Qed.

(** ** Examples of the specification *)

(** The body [{"Fault":{"Error":[{"code":"6240","Message":"m"}]}}] with
    status 400 makes [query] raise [DuplicateNameError]. *)
Example query_duplicate_name :
  (query (λ _, Return (response_of 400 (fault_body [error_entry "6240" "m"])))
     client_online "SELECT * FROM Customer" []).1
  = raise DuplicateNameError [fault_body [error_entry "6240" "m"]].
Proof. reflexivity. Qed.

Example quote_query :
  quote "SELECT * FROM CompanyInfo" = "SELECT%20%2A%20FROM%20CompanyInfo".
Proof. reflexivity. Qed.

(** Encoding twice is not encoding once. *)
Example quote_twice : quote (quote "a b") = "a%2520b" ∧ quote "a b" = "a%20b".
Proof. split; reflexivity. Qed.

(** A transport that raises on every call still gives a client, whose level
    is not set. *)
Example init_remote_down :
  (__init__ remote_down "ck" "cs" [] (Token (credential "QBO")) false true []).1
  = Return client_online.
Proof. reflexivity. Qed.

(** Neither a user nor a token: [ValueError], and nothing is sent. *)
Example init_other :
  ∃ args,
    __init__ remote_ok "ck" "cs" [] Other false true []
    = (raise ValueError args, []).
Proof. eexists. reflexivity. Qed.

(** * Further properties *)

(** ** The URLs of the data operations *)

Section Urls.
Variable remote : list request → result Response.

(** X1. [read], [create], [delete] and [update] lower-case the whole URL, hence
    each of its parts: the base, the tenant, the object type and the entity
    id.  The body of a POST is sent as it is. *)
Theorem path_requests_lower_parts (self : QuickbooksApi)
  (object_type entity_id object_body : string) (log : list request) :
  (read remote self object_type entity_id log).2
  = (log ++ [get_request (session self)
       (lower (url_base self) ++ "/company/" ++ lower (realm_id self) ++ "/"
        ++ lower object_type ++ "/" ++ lower entity_id)])%list ∧
  (create remote self object_type object_body log).2
  = (log ++ [post_request (session self)
       (lower (url_base self) ++ "/company/" ++ lower (realm_id self) ++ "/"
        ++ lower object_type) object_body])%list ∧
  (delete remote self object_type object_body log).2
  = (log ++ [post_request (session self)
       (lower (url_base self) ++ "/company/" ++ lower (realm_id self) ++ "/"
        ++ lower object_type ++ "?operation=delete") object_body])%list ∧
  (update remote self object_type object_body log).2
  = (log ++ [post_request (session self)
       (lower (url_base self) ++ "/company/" ++ lower (realm_id self) ++ "/"
        ++ lower object_type ++ "?operation=update") object_body])%list.
Proof.
  rewrite read_sends, create_sends, delete_sends, update_sends.
  cbn [snd]. by rewrite !lower_app.
Qed.

(** X2. No URL sent by [read], [create], [delete] or [update] has an upper-case
    ASCII letter. *)
Theorem path_requests_no_upper (self : QuickbooksApi)
  (object_type entity_id object_body : string) (log : list request) :
  (∃ url, (read remote self object_type entity_id log).2
          = (log ++ [get_request (session self) url])%list ∧
          no_upper url = true) ∧
  (∃ url, (create remote self object_type object_body log).2
          = (log ++ [post_request (session self) url object_body])%list ∧
          no_upper url = true) ∧
  (∃ url, (delete remote self object_type object_body log).2
          = (log ++ [post_request (session self) url object_body])%list ∧
          no_upper url = true) ∧
  (∃ url, (update remote self object_type object_body log).2
          = (log ++ [post_request (session self) url object_body])%list ∧
          no_upper url = true).
Proof.
  rewrite read_sends, create_sends, delete_sends, update_sends. cbn [snd].
  repeat split; eexists; (split; [reflexivity|apply no_upper_lower]).
Qed.

Lemma query_log (self : QuickbooksApi) (q : string) (log : list request) :
  (query remote self q log).2
  = (log ++ [get_request (session self)
       (url_base self ++ "/company/" ++ realm_id self ++ "/query?query="
        ++ quote q)])%list.
Proof. unfold query, session_get. by rewrite send_then_check. Qed.

(** X3. The query string that [query] sends has only letters, digits, the
    characters [_ . - /] and [%]; it is at least as long as the query and at
    most three times as long. *)
Theorem query_encoded_chars (self : QuickbooksApi) (q : string)
  (log : list request) :
  ∃ encoded,
    (query remote self q log).2
    = (log ++ [get_request (session self)
         (url_base self ++ "/company/" ++ realm_id self ++ "/query?query="
          ++ encoded)])%list ∧
    string_forall url_char encoded = true ∧
    (String.length q ≤ String.length encoded ≤ 3 * String.length q)%nat.
Proof.
  exists (quote q). split; [apply query_log|].
  split; [apply quote_url_chars|apply quote_length].
Qed.

(** X4. The request that [query] sends determines the query: two queries that
    send the same request are the same string. *)
Theorem query_request_inj (self : QuickbooksApi) (q1 q2 : string)
  (log : list request) :
  (query remote self q1 log).2 = (query remote self q2 log).2 → q1 = q2.
Proof.
  rewrite !query_log. intros H%app_inv_head. injection H as H.
  do 4 apply (inj (String.app _)) in H.
  rewrite <- (unquote_quote q1), <- (unquote_quote q2). by rewrite H.
Qed.

(** X5. [query] sends the query text as it is exactly when the text has only
    letters, digits and the characters [_ . - /]. *)
Theorem query_verbatim_iff (self : QuickbooksApi) (q : string)
  (log : list request) :
  (query remote self q log).2
  = (log ++ [get_request (session self)
       (url_base self ++ "/company/" ++ realm_id self ++ "/query?query="
        ++ q)])%list
  ↔ string_forall safe_char q = true.
Proof.
  rewrite query_log. split.
  - intros H%app_inv_head. injection H as H.
    do 4 apply (inj (String.app _)) in H. by apply quote_fixed_safe.
  - intros H. by rewrite quote_safe.
Qed.

End Urls.

Lemma query_request_inj_witness : "a b" = "a b".
Proof.
  apply (query_request_inj remote_ok client_online "a b" "a b" []).
  reflexivity.
Defined.

Lemma query_verbatim_iff_witness :
  (query remote_ok client_online "Customer/a-b_c.d" []).2
  = [get_request (session client_online)
       "https://quickbooks.api.intuit.com/v3/company/123/query?query=Customer/a-b_c.d"].
Proof.
  apply (proj2 (query_verbatim_iff remote_ok client_online
                  "Customer/a-b_c.d" [])).
  reflexivity.
Defined.

(** ** The classifier, on every response *)

(** What the loop over the entries can raise. *)
Lemma scan_errors_raises (body : jval) (es : list jval) (c : exc_class)
  (args : list jval) :
  scan_errors body es = Raise (Exc c args) →
  (c = KeyError ∧ args = [JStr "code"]) ∨ (c = TypeError ∧ args = []) ∨
  ((c = FeatureNotSupportedError ∨ c = DuplicateNameError) ∧ args = [body]).
Proof.
  induction es as [|e es IH]; [discriminate|].
  destruct e as [| | | | | |d]; simpl;
    try (intros [= <- <-]; right; left; done).
  destruct (d !! "code") as [code|]; simpl;
    [|intros [= <- <-]; left; done].
  destruct (ERRORS_get code) as [[cls|]|exn] eqn:Hget; simpl.
  - unfold ERRORS_getitem. rewrite Hget. simpl.
    apply ERRORS_get_Some in Hget as (s & _ & Hs).
    apply ERRORS_lookup in Hs as [[_ ->]|[_ ->]];
      intros [= <- <-]; right; right; auto.
  - exact IH.
  - destruct code; simpl in Hget; try discriminate;
      injection Hget as <-; intros [= <- <-]; right; left; done.
Qed.

(** The 400 branch of the classifier on a body that parses. *)
Lemma error_check_400_parsed (response : Response) (body : jval) :
  status_code response = 400 →
  json response = Return body →
  error_check response =
    (has_fault ← py_contains "Fault" body;
     if has_fault : bool then
       fault ← py_getitem body "Fault";
       errors ← py_get fault "Error" (JArr []);
       entries ← py_iter errors;
       scan_errors body entries;;
       raise ApiError [body]
     else Return body).
Proof.
  intros Hstatus Hjson. unfold error_check. rewrite Hstatus, Hjson. simpl.
  destruct (py_contains "Fault" body) as [[]|]; simpl; [|done..].
  destruct (py_getitem body "Fault") as [fault|]; simpl; [|done].
  destruct (py_get fault "Error" (JArr [])) as [errors|]; simpl; [|done].
  destruct (py_iter errors) as [entries|]; simpl; [|done].
  destruct (scan_errors body entries); reflexivity.
Qed.

Lemma error_check_not_400 (response : Response) :
  status_code response ≠ 400 →
  error_check response =
    if (status_code response =? 401)%Z then raise AuthenticationFailure []
    else json response.
Proof.
  intros H%Z.eqb_neq. unfold error_check. rewrite H. simpl.
  by destruct (status_code response =? 401)%Z.
Qed.

(** What a raise of the 400 branch looks like, on a body that parses. *)
Lemma error_check_400_raises (response : Response) (body : jval)
  (c : exc_class) (args : list jval) :
  status_code response = 400 →
  json response = Return body →
  error_check response = Raise (Exc c args) →
  (c = KeyError ∧ args = [JStr "code"]) ∨
  ((c = TypeError ∨ c = AttributeError) ∧ args = []) ∨
  ((c = ApiError ∨ c = FeatureNotSupportedError ∨ c = DuplicateNameError) ∧
   args = [body] ∧
   ∃ o f, body = JObj o ∧ o !! "Fault" = Some (JObj f)).
Proof.
  intros Hstatus Hjson. rewrite (error_check_400_parsed _ body) by done.
  destruct body as [| | | | s|l|o]; simpl;
    try (intros [= <- <-]; right; left; auto).
  - destruct (bool_decide _); simpl; [|discriminate].
    intros [= <- <-]; right; left; auto.
  - destruct (existsb _ l); simpl; [|discriminate].
    intros [= <- <-]; right; left; auto.
  - destruct (bool_decide (is_Some (o !! "Fault"))) eqn:Hhas; simpl;
      [|discriminate].
    apply bool_decide_eq_true in Hhas as [fault Hfault]. rewrite Hfault.
    simpl.
    destruct fault as [| | | | | |f]; simpl;
      try (intros [= <- <-]; right; left; auto).
    destruct (py_iter (default (JArr []) (f !! "Error"))) as [entries|exn]
      eqn:Hiter; simpl.
    + destruct (scan_errors (JObj o) entries) as [[]|[c' args']] eqn:Hscan;
        simpl.
      * intros [= <- <-]. right; right. eauto 10.
      * intros [= <- <-].
        apply scan_errors_raises in Hscan as [?|[[-> ->]|[[->| ->] ->]]];
          [by left|right; left; auto|right; right; eauto 10..].
    + destruct (default (JArr []) (f !! "Error")); simpl in Hiter;
        try discriminate; injection Hiter as <-;
        intros [= <- <-]; right; left; auto.
Qed.

Section Classifier.
Variable response : Response.

(** X6. On a body that parses, [error_check] raises only [KeyError],
    [TypeError], [AttributeError], [ApiError], [FeatureNotSupportedError],
    [DuplicateNameError] or [AuthenticationFailure] (never [TryLaterError],
    [CommunicationError], [DuplicateItemError] or the base class), and
    [AuthenticationFailure] exactly for status 401. *)
Theorem error_check_raised_classes (body : jval) (c : exc_class)
  (args : list jval) :
  json response = Return body →
  error_check response = Raise (Exc c args) →
  c ∈ error_check_classes ∧
  (c = AuthenticationFailure ↔ status_code response = 401).
Proof.
  intros Hjson Hraise. unfold error_check_classes.
  destruct (decide (status_code response = 400)) as [H400|H400].
  - destruct (error_check_400_raises response body c args H400 Hjson Hraise)
      as [[-> _]|[[[-> | ->] _]|[[->|[->| ->]] _]]];
      (split; [set_solver|rewrite H400; split; intros; discriminate]).
  - rewrite error_check_not_400 in Hraise by done.
    destruct (status_code response =? 401)%Z eqn:H401.
    + injection Hraise as <- <-. apply Z.eqb_eq in H401.
      split; [set_solver|done].
    + congruence.
Qed.

(** X7. An [ApiError], or one of its subclasses, raised on a body that parses:
    the status is 400, the exception carries the whole parsed body, and the
    body is an object with a [Fault] object. *)
Theorem error_check_api_error_payload (body : jval) (c : exc_class)
  (args : list jval) :
  json response = Return body →
  error_check response = Raise (Exc c args) →
  c = ApiError ∨ base_class c = Some ApiError →
  status_code response = 400 ∧ args = [body] ∧
  ∃ o f, body = JObj o ∧ o !! "Fault" = Some (JObj f).
Proof.
  intros Hjson Hraise Hc.
  destruct (decide (status_code response = 400)) as [H400|H400].
  - split; [done|].
    destruct (error_check_400_raises response body c args H400 Hjson Hraise)
      as [[-> _]|[[[-> | ->] _]|[_ ?]]]; try done;
      destruct Hc; discriminate.
  - rewrite error_check_not_400 in Hraise by done.
    destruct (status_code response =? 401)%Z.
    + injection Hraise as <- <-. destruct Hc; discriminate.
    + congruence.
Qed.

(** X8. What [error_check] returns is the parsed body, untouched; it returns
    nothing for status 401, and for status 400 only a body without
    [Fault]. *)
Theorem error_check_returns_body (v : jval) :
  error_check response = Return v →
  json response = Return v ∧ status_code response ≠ 401 ∧
  (status_code response = 400 → py_contains "Fault" v = Return false).
Proof.
  intros Hret.
  destruct (decide (status_code response = 400)) as [H400|H400].
  - destruct (json response) as [body|exn] eqn:Hjson.
    2:{ unfold error_check in Hret. rewrite H400, Hjson in Hret.
        discriminate. }
    rewrite (error_check_400_parsed response body) in Hret by done.
    destruct (py_contains "Fault" body) as [[]|] eqn:Hfault; simpl in Hret.
    + destruct (py_getitem body "Fault") as [fault|]; [|discriminate].
      simpl in Hret.
      destruct (py_get fault "Error" (JArr [])) as [errors|]; [|discriminate].
      simpl in Hret. destruct (py_iter errors) as [entries|]; [|discriminate].
      simpl in Hret. destruct (scan_errors body entries); discriminate.
    + injection Hret as <-. split; [done|]. split; [lia|done].
    + discriminate.
  - rewrite error_check_not_400 in Hret by done.
    destruct (status_code response =? 401)%Z eqn:H401; [discriminate|].
    apply Z.eqb_neq in H401. done.
Qed.

(** X9. A body that does not parse: for every status but 401, [error_check]
    raises the exception of the parser, also for status 400. *)
Theorem error_check_parse_failure (e : exception) :
  status_code response ≠ 401 →
  json response = Raise e →
  error_check response = Raise e.
Proof.
  intros H401 Hjson.
  destruct (decide (status_code response = 400)) as [H400|H400].
  - unfold error_check. by rewrite H400, Hjson.
  - rewrite error_check_not_400 by done.
    apply Z.eqb_neq in H401. by rewrite H401.
Qed.

(** X10. A 400 body whose [Fault] is not an object makes [error_check] raise
    [AttributeError]; a [Fault] object whose [Error] cannot be iterated
    makes it raise what the iteration raises ([TypeError]).  Neither is an
    [ApiError]. *)
Theorem error_check_400_malformed_Fault (o : gmap string jval)
  (fault : jval) :
  status_code response = 400 →
  json response = Return (JObj o) →
  o !! "Fault" = Some fault →
  (is_object fault = false →
   error_check response = raise AttributeError []) ∧
  (∀ f errors e,
     fault = JObj f → f !! "Error" = Some errors →
     py_iter errors = Raise e →
     e = Exc TypeError [] ∧ error_check response = Raise e).
Proof.
  intros Hstatus Hjson Hfault.
  rewrite (error_check_400_parsed response (JObj o)) by done.
  unfold py_contains. rewrite bool_decide_eq_true_2 by (rewrite Hfault; eauto).
  simpl. rewrite Hfault. simpl. split.
  - by destruct fault.
  - intros f errors e -> Herror Hiter. simpl. rewrite Herror. simpl.
    rewrite Hiter. simpl. split; [|done].
    destruct errors; simpl in Hiter; try discriminate; by injection Hiter.
Qed.

End Classifier.

Lemma error_check_raised_classes_witness :
  KeyError ∈ error_check_classes ∧
  (KeyError = AuthenticationFailure ↔ 400 = 401).
Proof.
  apply (error_check_raised_classes
           (response_of 400 (fault_body [entry_without_code]))
           (fault_body [entry_without_code]) KeyError [JStr "code"]);
    reflexivity.
Defined.

Lemma error_check_api_error_payload_witness :
  400 = 400 ∧
  [fault_body [error_entry "6240" "m"]] = [fault_body [error_entry "6240" "m"]] ∧
  ∃ o f, fault_body [error_entry "6240" "m"] = JObj o ∧
         o !! "Fault" = Some (JObj f).
Proof.
  apply (error_check_api_error_payload
           (response_of 400 (fault_body [error_entry "6240" "m"]))
           (fault_body [error_entry "6240" "m"]) DuplicateNameError
           [fault_body [error_entry "6240" "m"]]);
    [reflexivity | reflexivity | right; reflexivity].
Defined.

Lemma error_check_returns_body_witness :
  json (response_of 400 (JArr [JStr "x"])) = Return (JArr [JStr "x"]) ∧
  400 ≠ 401 ∧
  (400 = 400 → py_contains "Fault" (JArr [JStr "x"]) = Return false).
Proof.
  apply (error_check_returns_body (response_of 400 (JArr [JStr "x"]))
           (JArr [JStr "x"])).
  reflexivity.
Defined.

Lemma error_check_parse_failure_witness :
  error_check (html_response 400) = raise ValueError [].
Proof.
  apply (error_check_parse_failure (html_response 400) (Exc ValueError []));
    [discriminate | reflexivity].
Defined.

Lemma error_check_400_malformed_Fault_witness :
  error_check (response_of 400 (JObj {[ "Fault" := JStr "down" ]}))
  = raise AttributeError [] ∧
  error_check
    (response_of 400 (JObj {[ "Fault" := JObj {[ "Error" := JInt 7 ]} ]}))
  = raise TypeError [].
Proof.
  split.
  - destruct (error_check_400_malformed_Fault
      (response_of 400 (JObj {[ "Fault" := JStr "down" ]}))
      {[ "Fault" := JStr "down" ]} (JStr "down")) as [H _];
      [reflexivity..|].
    apply H. reflexivity.
  - destruct (error_check_400_malformed_Fault
      (response_of 400 (JObj {[ "Fault" := JObj {[ "Error" := JInt 7 ]} ]}))
      {[ "Fault" := JObj {[ "Error" := JInt 7 ]} ]}
      (JObj {[ "Error" := JInt 7 ]})) as [_ H];
      [reflexivity..|].
    apply (H {[ "Error" := JInt 7 ]} (JInt 7) (Exc TypeError []));
      reflexivity.
Defined.

(** ** The credential store, on every table *)

Section StoreFacts.
Variable table : list Models.QuickbooksToken.

Lemma objects_filter_first (u : Models.User) (t : Models.QuickbooksToken)
  (rest : list Models.QuickbooksToken) :
  Models.objects_filter table u = t :: rest →
  ∃ pre post,
    table = (pre ++ t :: post)%list ∧ Models.user t = Models.pk u ∧
    ∀ t', t' ∈ pre → Models.user t' ≠ Models.pk u.
Proof.
  unfold Models.objects_filter. induction table as [|t0 l IH]; [done|].
  rewrite filter_cons. case_decide as Ht0.
  - intros [= -> _]. exists [], l. repeat split; [done|]. intros t' Hin.
    by apply elem_of_nil in Hin.
  - intros (pre & post & -> & Ht & Hpre)%IH.
    exists (t0 :: pre), post. repeat split; [done|].
    intros t' [->|Hin]%elem_of_cons; auto.
Qed.

(** X11. A credential that [find_quickbooks_token] returns belongs to the user,
    who is authenticated, and is the first row of that user in the table:
    with several rows for a user, the later ones are never returned. *)
Theorem find_quickbooks_token_first (x : Models.request_or_user)
  (t : Models.QuickbooksToken) :
  Models.find_quickbooks_token table x = Return (Some t) →
  ∃ u,
    Models.user_of x = Return u ∧
    Models.is_authenticated u = true ∧
    Models.user t = Models.pk u ∧
    ∃ pre post,
      table = (pre ++ t :: post)%list ∧
      ∀ t', t' ∈ pre → Models.user t' ≠ Models.pk u.
Proof.
  unfold Models.find_quickbooks_token.
  destruct (Models.user_of x) as [u|]; [|discriminate]. simpl.
  destruct (Models.is_authenticated u) eqn:Hauth; [|discriminate].
  simpl.
  destruct (Models.objects_filter table u) as [|t0 rest]
    eqn:Hfilter; [discriminate|].
  simpl. intros [= ->].
  apply objects_filter_first in Hfilter as (pre & post & ? & ? & ?).
  exists u. split; [done|]. split; [done|]. split; [done|].
  by exists pre, post.
Qed.

(** X12. [find_quickbooks_token] raises exactly when its argument is neither
    an instance of the user model nor has an attribute [user], and then
    [AttributeError]: the [IndexError] of a query without rows never leaves
    it.  [get_quickbooks_token] raises in that case too, and otherwise only
    [MissingTokenException], when nothing is found. *)
Theorem quickbooks_token_raises (x : Models.request_or_user)
  (e : exception) :
  (Models.find_quickbooks_token table x = Raise e ↔
   x = Models.AnonymousUser ∧ e = Exc AttributeError []) ∧
  (Models.get_quickbooks_token table x = Raise e ↔
   (x = Models.AnonymousUser ∧ e = Exc AttributeError []) ∨
   (Models.find_quickbooks_token table x = Return None ∧
    e = Exc MissingTokenException [JStr Models.missing_token_message])).
Proof.
  assert (∀ u, Models.user_of x = Return u →
               ∃ found, Models.find_quickbooks_token table x = Return found)
    as Hfound.
  { intros u Hu. unfold Models.find_quickbooks_token. rewrite Hu. simpl.
    destruct (Models.is_authenticated u); simpl; [|eauto].
    destruct (Models.objects_filter table u); simpl; eauto. }
  unfold Models.get_quickbooks_token.
  destruct x as [u|u|].
  - destruct (Hfound u eq_refl) as [found ->]. simpl.
    split; [split; [done|by intros [? _]]|].
    destruct found; split; try done.
    + intros [[? _]|[? _]]; done.
    + intros [= <-]. by right.
    + intros [[? _]|[_ ->]]; done.
  - destruct (Hfound u eq_refl) as [found ->]. simpl.
    split; [split; [done|by intros [? _]]|].
    destruct found; split; try done.
    + intros [[? _]|[? _]]; done.
    + intros [= <-]. by right.
    + intros [[? _]|[_ ->]]; done.
  - split; split.
    + by intros [= <-].
    + by intros [_ ->].
    + intros [= <-]. by left.
    + intros [[_ ->]|[? _]]; done.
Qed.

End StoreFacts.

Lemma find_quickbooks_token_first_witness :
  ∃ u,
    Models.user_of
      (Models.AUser {| Models.pk := 7; Models.is_authenticated := true |})
    = Return u ∧
    Models.is_authenticated u = true ∧
    Models.user later_credential = Models.pk u ∧
    ∃ pre post,
      [other_credential; later_credential; credential "QBO"]
      = (pre ++ later_credential :: post)%list ∧
      ∀ t', t' ∈ pre → Models.user t' ≠ Models.pk u.
Proof.
  apply (find_quickbooks_token_first
           [other_credential; later_credential; credential "QBO"]
           (Models.AUser {| Models.pk := 7; Models.is_authenticated := true |})
           later_credential).
  reflexivity.
Defined.

(** ** The data operations and what the remote side answers *)

Section Operations.
Variable remote : list request → result Response.
Variable self : QuickbooksApi.
Variables object_type entity_id object_body q : string.
Variable log : list request.


(** X14. When the remote side answers 401, [read], [query], [create] and
    [delete] raise [AuthenticationFailure]; [update] raises [NameError]
    there too. *)
Theorem unauthorized_operations :
  (∀ r, ∃ response, remote (log ++ [r])%list = Return response ∧
                    status_code response = 401) →
  (read remote self object_type entity_id log).1
  = raise AuthenticationFailure [] ∧
  (query remote self q log).1 = raise AuthenticationFailure [] ∧
  (create remote self object_type object_body log).1
  = raise AuthenticationFailure [] ∧
  (delete remote self object_type object_body log).1
  = raise AuthenticationFailure [] ∧
  (update remote self object_type object_body log).1 = raise NameError [].
Proof.
  intros H401.
  assert (∀ r, (remote (log ++ [r])%list ≫= error_check)
               = raise AuthenticationFailure []) as Hcheck.
  { intros r. destruct (H401 r) as (response & -> & Hstatus). simpl.
    rewrite error_check_not_400 by lia. by rewrite Hstatus. }
  rewrite read_sends, create_sends, delete_sends, update_sends.
  unfold query, session_get. rewrite send_then_check. cbn [fst].
  rewrite !Hcheck. repeat split.
  match goal with |- context [remote (log ++ [?r])%list] =>
    destruct (H401 r) as (response & -> & _) end.
  reflexivity.
Qed.

(** X15. When the remote side answers with a status other than 400 and 401 and a
    body that parses, [read], [query], [create] and [delete] return that
    body. *)
Theorem operations_return_body (body : jval) :
  (∀ r, ∃ response, remote (log ++ [r])%list = Return response ∧
                    status_code response ≠ 400 ∧
                    status_code response ≠ 401 ∧
                    json response = Return body) →
  (read remote self object_type entity_id log).1 = Return body ∧
  (query remote self q log).1 = Return body ∧
  (create remote self object_type object_body log).1 = Return body ∧
  (delete remote self object_type object_body log).1 = Return body.
Proof.
  intros Hok.
  assert (∀ r, (remote (log ++ [r])%list ≫= error_check) = Return body)
    as Hcheck.
  { intros r. destruct (Hok r) as (response & -> & H400 & H401 & Hjson).
    simpl. rewrite error_check_not_400 by done.
    apply Z.eqb_neq in H401. by rewrite H401. }
  rewrite read_sends, create_sends, delete_sends.
  unfold query, session_get. rewrite send_then_check. cbn [fst].
  by rewrite !Hcheck.
Qed.

End Operations.


Lemma unauthorized_operations_witness :
  (read (remote_const (html_response 401)) client_online "Customer" "42" []).1
  = raise AuthenticationFailure [] ∧
  (query (remote_const (html_response 401)) client_online
     "SELECT * FROM Customer" []).1
  = raise AuthenticationFailure [] ∧
  (create (remote_const (html_response 401)) client_online "Customer" "{}"
     []).1
  = raise AuthenticationFailure [] ∧
  (delete (remote_const (html_response 401)) client_online "Customer" "{}"
     []).1
  = raise AuthenticationFailure [] ∧
  (update (remote_const (html_response 401)) client_online "Customer" "{}"
     []).1
  = raise NameError [].
Proof.
  apply (unauthorized_operations (remote_const (html_response 401))
           client_online "Customer" "42" "{}" "SELECT * FROM Customer" []).
  intros r. exists (html_response 401). split; reflexivity.
Defined.

Lemma operations_return_body_witness :
  (read (remote_const (response_of 404 (fault_body []))) client_online
     "Customer" "42" []).1 = Return (fault_body []) ∧
  (query (remote_const (response_of 404 (fault_body []))) client_online
     "SELECT * FROM Customer" []).1 = Return (fault_body []) ∧
  (create (remote_const (response_of 404 (fault_body []))) client_online
     "Customer" "{}" []).1 = Return (fault_body []) ∧
  (delete (remote_const (response_of 404 (fault_body []))) client_online
     "Customer" "{}" []).1 = Return (fault_body []).
Proof.
  apply (operations_return_body
           (remote_const (response_of 404 (fault_body []))) client_online
           "Customer" "42" "{}" "SELECT * FROM Customer" [] (fault_body [])).
  intros r. exists (response_of 404 (fault_body [])).
  repeat split; discriminate.
Defined.

(** ** The app-center requests, on every remote side *)

Section AppCenter.
Variable remote : list request → result Response.
Variable self : QuickbooksApi.

Lemma appcenter_loop_fails (full_url : string) (passes : nat) :
  ∀ (k : nat) (log : list request) (content : option string)
    (resp : nat → Response) (e : exception),
    (k < passes)%nat →
    (∀ i, (i < k)%nat →
          remote (log ++ replicate (S i)
                    (get_request (session self) full_url))%list
          = Return (resp i)) →
    remote (log ++ replicate (S k)
              (get_request (session self) full_url))%list = Raise e →
    appcenter_loop remote self full_url passes content log
    = (Raise e,
       (log ++ replicate (S k) (get_request (session self) full_url))%list).
Proof.
  induction passes as [|p IH]; intros k log content resp e Hk Hresp Hfail;
    [lia|].
  simpl. unfold mbind, client_bind, session_get, send.
  destruct k as [|k].
  - simpl in Hfail. by rewrite Hfail.
  - pose proof (Hresp O ltac:(lia)) as H0. simpl in H0. rewrite H0.
    rewrite (IH k _ _ (λ i, resp (S i)) e).
    + by rewrite <- app_assoc.
    + lia.
    + intros i Hi. rewrite <- app_assoc. apply (Hresp (S i)). lia.
    + by rewrite <- app_assoc.
Qed.

(** X16. With a negative [retries] the loop of [_appcenter_request] has no pass:
    no request is sent and the [return content] raises
    [UnboundLocalError]. *)
Theorem appcenter_request_negative_retries (url : string) (retries : Z)
  (log : list request) :
  (retries < 0)%Z →
  _appcenter_request remote self url retries log
  = (raise UnboundLocalError [], log) ∧
  app_menu remote self retries log = (raise UnboundLocalError [], log).
Proof.
  intros Hneg. unfold app_menu, _appcenter_request.
  replace (Z.to_nat (retries + 1)) with O by lia. done.
Qed.

(** X17. The first exception of the transport ends [_appcenter_request]: the
    exception goes to the caller and the remaining passes send nothing. *)
Theorem appcenter_request_stops_at_failure (url : string) (retries : Z)
  (k : nat) (log : list request) (resp : nat → Response) (e : exception) :
  (0 ≤ retries)%Z →
  (k ≤ Z.to_nat retries)%nat →
  (∀ i, (i < k)%nat →
        remote (log ++ replicate (S i)
                  (get_request (session self) (APPCENTER_URL_BASE ++ url)))%list
        = Return (resp i)) →
  remote (log ++ replicate (S k)
            (get_request (session self) (APPCENTER_URL_BASE ++ url)))%list
  = Raise e →
  _appcenter_request remote self url retries log
  = (Raise e,
     (log ++ replicate (S k)
        (get_request (session self) (APPCENTER_URL_BASE ++ url)))%list).
Proof.
  intros Hretries Hk Hresp Hfail. unfold _appcenter_request.
  unfold mbind, client_bind.
  rewrite (appcenter_loop_fails _ _ k log None resp e); [done|lia|done..].
Qed.

(** X18. [disconnect] sends its request four times when the transport gives a
    response each time, and returns the raw content of the fourth response,
    whatever the status of the responses is. *)
Theorem disconnect_sends_four (log : list request) (resp : nat → Response) :
  (∀ i, (i ≤ 3)%nat →
        remote (log ++ replicate (S i) (disconnect_request self))%list
        = Return (resp i)) →
  disconnect remote self log
  = (Return (content (resp 3%nat)),
     (log ++ replicate 4 (disconnect_request self))%list).
Proof.
  intros Hresp. unfold disconnect, _appcenter_request, mbind, client_bind.
  change (Z.to_nat (3 + 1)) with 4%nat.
  rewrite (appcenter_loop_runs remote self _ 4 log None resp); [done|].
  intros i Hi. apply Hresp. lia.
Qed.

End AppCenter.

Lemma appcenter_request_negative_retries_witness :
  _appcenter_request remote_ok client_online "account/appmenu" (-1) []
  = (raise UnboundLocalError [], []) ∧
  app_menu remote_ok client_online (-1) [] = (raise UnboundLocalError [], []).
Proof.
  apply (appcenter_request_negative_retries remote_ok client_online
           "account/appmenu" (-1) []).
  lia.
Defined.

Lemma remote_ok_until_replicate (k : nat) (r : request) (i : nat) :
  (i < k)%nat →
  remote_ok_until k ([] ++ replicate (S i) r)%list = Return (response_ok i).
Proof.
  intros Hi. unfold remote_ok_until.
  rewrite app_nil_l at 1. rewrite length_replicate.
  destruct (Nat.leb_spec (S i) k); [|lia]. apply remote_ok_replicate.
Qed.

Lemma appcenter_request_stops_at_failure_witness :
  _appcenter_request (remote_ok_until 2) client_online "account/appmenu" 3 []
  = (raise RequestException [],
     replicate 3 (appmenu_request client_online)).
Proof.
  apply (appcenter_request_stops_at_failure (remote_ok_until 2) client_online
           "account/appmenu" 3 2 [] response_ok (Exc RequestException [])).
  - lia.
  - lia.
  - intros i Hi. by apply remote_ok_until_replicate.
  - reflexivity.
Defined.

Lemma disconnect_sends_four_witness :
  disconnect remote_ok client_online []
  = (Return "4", replicate 4 (disconnect_request client_online)).
Proof.
  apply (disconnect_sends_four remote_ok client_online [] response_ok).
  intros i _. apply remote_ok_replicate.
Defined.

(** ** Construction of the client *)

Lemma url_bases_lookup (sandbox : bool) (source base : string) :
  url_bases sandbox !! source = Some base ↔
  (source = "QBD" ∧ base = QUICKBOOKS_DESKTOP_V3_URL_BASE) ∨
  (source = "QBO" ∧
   base = if sandbox then QUICKBOOKS_ONLINE_V3_SANDBOX_URL_BASE
          else QUICKBOOKS_ONLINE_V3_URL_BASE).
Proof.
  unfold url_bases. split.
  - intros H. apply lookup_insert_Some in H as [[<- <-]|[_ H]]; [by left|].
    apply lookup_singleton_Some in H as [<- <-]. by right.
  - intros [[-> ->]|[-> ->]].
    + apply lookup_insert_eq.
    + rewrite lookup_insert_ne by discriminate. apply lookup_singleton_eq.
Qed.

Lemma with_level_same (self : QuickbooksApi) :
  with_level self (level self) = self.
Proof. by destruct self. Qed.

Lemma pairing_Name (name value : jval) :
  py_getitem (pairing (name, value)) "Name" = Return name.
Proof. unfold pairing, py_getitem. simpl. by rewrite lookup_insert_eq. Qed.

Lemma pairing_Value (name value : jval) :
  py_getitem (pairing (name, value)) "Value" = Return value.
Proof.
  unfold pairing, py_getitem. simpl.
  rewrite lookup_insert_ne by discriminate. by rewrite lookup_singleton_eq.
Qed.

(** The pairings of a well-formed answer: the last [OfferingSku] wins. *)
Lemma find_level_pairings (pairs : list (jval * jval)) :
  ∀ level0,
    find_level (pairing <$> pairs) level0
    = (default level0
         (last (snd <$> List.filter (λ p, py_eq_str p.1 "OfferingSku") pairs)),
       Return tt).
Proof.
  induction pairs as [|[name value] pairs IH]; intros level0; [done|].
  rewrite fmap_cons. cbn [find_level]. rewrite pairing_Name, pairing_Value.
  cbn [List.filter fst]. destruct (py_eq_str name "OfferingSku").
  - rewrite IH, fmap_cons. cbn [snd].
    by destruct (snd <$> List.filter _ pairs) as [|v l] using rev_ind;
      [|rewrite app_comm_cons, !last_snoc].
  - apply IH.
Qed.

Lemma company_level_pairings (pairs : list (jval * jval)) :
  company_level JNull (company_info (JArr (pairing <$> pairs)))
  = Return (last_sku pairs).
Proof.
  unfold company_level, company_info, py_getitem, py_getitem_int.
  rewrite lookup_singleton_eq. cbn. rewrite lookup_singleton_eq. cbn.
  rewrite lookup_singleton_eq. cbn. by rewrite find_level_pairings.
Qed.

(** [first()] gives a row of the queryset; it is the first row when no
    other row has a smaller primary key. *)
Lemma least_id_elem (best : Models.QuickbooksToken)
  (qs : list Models.QuickbooksToken) :
  Models.least_id best qs ∈ best :: qs.
Proof.
  revert best. induction qs as [|t qs IH]; intros best; simpl.
  - apply list_elem_of_here.
  - destruct (Models.id t <? Models.id best)%Z.
    + apply elem_of_cons. right. apply IH.
    + specialize (IH best). apply elem_of_cons in IH as [->|?];
        [apply list_elem_of_here|].
      apply elem_of_cons. right. by apply elem_of_cons; right.
Qed.


Lemma queryset_first_elem (qs : list Models.QuickbooksToken)
  (t : Models.QuickbooksToken) :
  Models.queryset_first qs = Some t → t ∈ qs.
Proof.
  destruct qs as [|t0 rest]; [discriminate|]. simpl. intros [= <-].
  apply least_id_elem.
Qed.

Section Construction.
Variable remote : list request → result Response.
Variables CONSUMER_KEY CONSUMER_SECRET : string.
Variable table : list Models.QuickbooksToken.

(** The probe as one step: the request of the query, and the level that the
    [try] block leaves. *)
Lemma probe_level_run (self : QuickbooksApi) (log : list request) :
  probe_level remote self log
  = (Return (with_level self
       match (remote (log ++ [level_request self])%list ≫= error_check)
             ≫= company_level (level self) with
       | Return lv => lv
       | Raise _ => level self
       end),
     (log ++ [level_request self])%list).
Proof.
  unfold probe_level, query, session_get.
  unfold mbind at 1 2 3, client_bind. rewrite send_then_check.
  change (get_request (session self) _) with (level_request self).
  destruct (remote (log ++ [level_request self])%list ≫= error_check)
    as [answer|e]; simpl; [|by rewrite with_level_same].
  unfold lift, company_level.
  destruct (py_getitem answer "QueryResponse") as [a|];
    simpl; [|by rewrite with_level_same].
  destruct (py_getitem a "CompanyInfo") as [b|];
    simpl; [|by rewrite with_level_same].
  destruct (py_getitem_int b 0) as [c|];
    simpl; [|by rewrite with_level_same].
  destruct (py_getitem c "NameValue") as [name_values|];
    simpl; [|by rewrite with_level_same].
  destruct (py_iter name_values) as [pairings|];
    simpl; [|by rewrite with_level_same].
  reflexivity.
Qed.

Lemma init_token (tok : Models.QuickbooksToken) (sandbox get_level : bool)
  (log : list request) (base : string) :
  url_bases sandbox !! Models.data_source tok = Some base →
  __init__ remote CONSUMER_KEY CONSUMER_SECRET table (Token tok) sandbox
    get_level log
  = if get_level
    then probe_level remote
           (fresh_client CONSUMER_KEY CONSUMER_SECRET tok base) log
    else (Return (fresh_client CONSUMER_KEY CONSUMER_SECRET tok base), log).
Proof.
  intros Hbase. unfold __init__, mbind, client_bind, lift. rewrite Hbase.
  by destruct get_level.
Qed.

Lemma init_owner (u : Models.User) (sandbox get_level : bool)
  (log : list request) :
  __init__ remote CONSUMER_KEY CONSUMER_SECRET table (Owner u) sandbox
    get_level log
  = match Models.queryset_first (Models.objects_filter table u) with
    | Some t =>
        __init__ remote CONSUMER_KEY CONSUMER_SECRET table (Token t) sandbox
          get_level log
    | None => (raise AttributeError [], log)
    end.
Proof.
  unfold __init__, mbind, client_bind, lift.
  by destruct (Models.queryset_first (Models.objects_filter table u)).
Qed.

Lemma init_token_run (tok : Models.QuickbooksToken)
  (sandbox get_level : bool) (log : list request) (base : string) :
  url_bases sandbox !! Models.data_source tok = Some base →
  __init__ remote CONSUMER_KEY CONSUMER_SECRET table (Token tok) sandbox
    get_level log
  = (Return (with_level
       (fresh_client CONSUMER_KEY CONSUMER_SECRET tok base)
       (if get_level then
          match (remote (log ++ [level_request
                   (fresh_client CONSUMER_KEY CONSUMER_SECRET tok base)])%list
                 ≫= error_check) ≫= company_level JNull with
          | Return lv => lv
          | Raise _ => JNull
          end
        else JNull)),
     if get_level
     then (log ++ [level_request
                     (fresh_client CONSUMER_KEY CONSUMER_SECRET tok base)])%list
     else log).
Proof.
  intros Hbase. rewrite (init_token _ _ _ _ base) by done.
  destruct get_level.
  - by rewrite probe_level_run.
  - by rewrite <- with_level_same at 1.
Qed.

Lemma init_token_unknown_source (tok : Models.QuickbooksToken)
  (sandbox get_level : bool) (log : list request) :
  url_bases sandbox !! Models.data_source tok = None →
  __init__ remote CONSUMER_KEY CONSUMER_SECRET table (Token tok) sandbox
    get_level log
  = (raise KeyError [JStr (Models.data_source tok)], log).
Proof.
  intros Hbase. unfold __init__, mbind, client_bind, lift. by rewrite Hbase.
Qed.

(** X19. From a credential whose data source is a key of the table of bases,
    [__init__] always gives a client, whatever the remote side does.  With
    [get_level] it sends one request, the query of the company information;
    without, it sends nothing and the level is [None]. *)
Theorem init_from_token_succeeds (tok : Models.QuickbooksToken)
  (sandbox get_level : bool) (log : list request) (base : string) :
  url_bases sandbox !! Models.data_source tok = Some base →
  ∃ lv,
    __init__ remote CONSUMER_KEY CONSUMER_SECRET table (Token tok) sandbox
      get_level log
    = (Return (with_level
                 (fresh_client CONSUMER_KEY CONSUMER_SECRET tok base) lv),
       if get_level
       then (log ++ [level_request
                       (fresh_client CONSUMER_KEY CONSUMER_SECRET tok base)])%list
       else log) ∧
    (get_level = false → lv = JNull).
Proof.
  intros Hbase. rewrite (init_token_run _ _ _ _ base) by done.
  eexists. split; [reflexivity|]. by intros ->.
Qed.

(** X20. When [__init__] raises, nothing has been sent, and the exception is a
    [ValueError] (exactly when the argument is neither a user nor a token),
    an [AttributeError] or a [KeyError]: the probe of the level never makes
    the construction fail. *)
Theorem init_fails_before_sending (o : owner_or_token)
  (sandbox get_level : bool) (log log' : list request) (e : exception) :
  __init__ remote CONSUMER_KEY CONSUMER_SECRET table o sandbox get_level log
  = (Raise e, log') →
  log' = log ∧
  exc_type e ∈ [ValueError; AttributeError; KeyError] ∧
  (exc_type e = ValueError ↔ o = Other).
Proof.
  assert (∀ tok,
    __init__ remote CONSUMER_KEY CONSUMER_SECRET table (Token tok) sandbox
      get_level log = (Raise e, log') →
    log' = log ∧ exc_type e = KeyError) as Htoken.
  { intros tok.
    destruct (url_bases sandbox !! Models.data_source tok) as [base|]
      eqn:Hbase.
    - by rewrite (init_token_run _ _ _ _ base).
    - rewrite init_token_unknown_source by done. by intros [= <- <-]. }
  destruct o as [u|tok|].
  - rewrite init_owner.
    destruct (Models.queryset_first (Models.objects_filter table u))
      as [t|].
    + intros H. apply Htoken in H as [-> ->].
      split; [done|]. split; [by repeat constructor|done].
    + intros [= <- <-]. split; [done|]. split; [by repeat constructor|done].
  - intros H. apply Htoken in H as [-> ->].
    split; [done|]. split; [by repeat constructor|done].
  - intros [= <- <-]. split; [done|]. split; [by repeat constructor|done].
Qed.

(** X21. A client that [__init__] returns: its tenant and data source are those
    of its token; the data source is ["QBD"] with the desktop base or
    ["QBO"] with the online base, the sandbox base only for ["QBO"] under
    [sandbox]; its session signs with the consumer key pair of the settings
    and the access key pair of the token; the token is the given one, or a
    row of the given user. *)
Theorem init_client_invariants (o : owner_or_token)
  (sandbox get_level : bool) (log log' : list request)
  (self : QuickbooksApi) :
  __init__ remote CONSUMER_KEY CONSUMER_SECRET table o sandbox get_level log
  = (Return self, log') →
  realm_id self = Models.realm_id (token self) ∧
  data_source self = Models.data_source (token self) ∧
  ((data_source self = "QBD" ∧
    url_base self = QUICKBOOKS_DESKTOP_V3_URL_BASE) ∨
   (data_source self = "QBO" ∧
    url_base self = if sandbox then QUICKBOOKS_ONLINE_V3_SANDBOX_URL_BASE
                    else QUICKBOOKS_ONLINE_V3_URL_BASE)) ∧
  client_key (session self) = CONSUMER_KEY ∧
  client_secret (session self) = CONSUMER_SECRET ∧
  resource_owner_key (session self) = Models.access_token (token self) ∧
  resource_owner_secret (session self)
  = Models.access_token_secret (token self) ∧
  match o with
  | Owner u => Models.user (token self) = Models.pk u ∧ token self ∈ table
  | Token t => token self = t
  | Other => False
  end.
Proof.
  assert (∀ tok,
    __init__ remote CONSUMER_KEY CONSUMER_SECRET table (Token tok) sandbox
      get_level log = (Return self, log') →
    ∃ base lv,
      url_bases sandbox !! Models.data_source tok = Some base ∧
      self = with_level
               (fresh_client CONSUMER_KEY CONSUMER_SECRET tok base) lv)
    as Htoken.
  { intros tok.
    destruct (url_bases sandbox !! Models.data_source tok) as [base|]
      eqn:Hbase.
    - rewrite (init_token_run _ _ _ _ base) by done. intros [= <- _]. eauto.
    - by rewrite init_token_unknown_source. }
  destruct o as [u|tok|].
  - rewrite init_owner.
    destruct (Models.queryset_first (Models.objects_filter table u))
      as [t|] eqn:Hfirst; [|discriminate].
    intros H. apply Htoken in H as (base & lv & Hbase & ->).
    apply url_bases_lookup in Hbase. simpl.
    apply queryset_first_elem, list_elem_of_filter in Hfirst as [Hu Hin].
    repeat split; done.
  - intros H. apply Htoken in H as (base & lv & Hbase & ->).
    apply url_bases_lookup in Hbase. simpl. repeat split; done.
  - discriminate.
Qed.


(** X23. When the answer to the probe has the pairings of the company
    information, the level of the client is the value of the last pairing
    named [OfferingSku], and [None] when there is none. *)
Theorem init_level_found (tok : Models.QuickbooksToken) (sandbox : bool)
  (log : list request) (base : string) (response : Response)
  (pairs : list (jval * jval)) :
  url_bases sandbox !! Models.data_source tok = Some base →
  remote (log ++ [level_request
                    (fresh_client CONSUMER_KEY CONSUMER_SECRET tok base)])%list
  = Return response →
  status_code response ≠ 400 →
  status_code response ≠ 401 →
  json response = Return (company_info (JArr (pairing <$> pairs))) →
  __init__ remote CONSUMER_KEY CONSUMER_SECRET table (Token tok) sandbox true
    log
  = (Return (with_level
               (fresh_client CONSUMER_KEY CONSUMER_SECRET tok base)
               (last_sku pairs)),
     (log ++ [level_request
                (fresh_client CONSUMER_KEY CONSUMER_SECRET tok base)])%list).
Proof.
  intros Hbase Hremote H400 H401 Hjson.
  rewrite (init_token_run _ _ _ _ base) by done.
  rewrite Hremote. simpl. rewrite error_check_not_400 by done.
  apply Z.eqb_neq in H401. rewrite H401, Hjson.
  change ((Return (company_info (JArr (pairing <$> pairs))))
          ≫= company_level JNull)
    with (company_level JNull (company_info (JArr (pairing <$> pairs)))).
  by rewrite company_level_pairings.
Qed.

(** X24. When the probe fails (the transport raises, the classifier raises, or
    the answer has no list of pairings), the client is constructed all the
    same, with the level [None]. *)
Theorem init_probe_failure (tok : Models.QuickbooksToken) (sandbox : bool)
  (log : list request) (base : string) (e : exception) :
  url_bases sandbox !! Models.data_source tok = Some base →
  (remote (log ++ [level_request
                     (fresh_client CONSUMER_KEY CONSUMER_SECRET tok base)])%list
     ≫= error_check) ≫= company_level JNull = Raise e →
  __init__ remote CONSUMER_KEY CONSUMER_SECRET table (Token tok) sandbox true
    log
  = (Return (fresh_client CONSUMER_KEY CONSUMER_SECRET tok base),
     (log ++ [level_request
                (fresh_client CONSUMER_KEY CONSUMER_SECRET tok base)])%list).
Proof.
  intros Hbase Hfail.
  rewrite (init_token_run _ _ _ _ base) by done.
  rewrite Hfail. by rewrite <- with_level_same at 1.
Qed.

End Construction.

Lemma init_from_token_succeeds_witness :
  ∃ lv,
    __init__ remote_down "ck" "cs" [] (Token (credential "QBD")) true true []
    = (Return (with_level
                 (fresh_client "ck" "cs" (credential "QBD")
                    QUICKBOOKS_DESKTOP_V3_URL_BASE) lv),
       ([] ++ [level_request
                 (fresh_client "ck" "cs" (credential "QBD")
                    QUICKBOOKS_DESKTOP_V3_URL_BASE)])%list) ∧
    (true = false → lv = JNull).
Proof.
  apply (init_from_token_succeeds remote_down "ck" "cs" []
           (credential "QBD") true true [] QUICKBOOKS_DESKTOP_V3_URL_BASE).
  reflexivity.
Defined.

Lemma init_fails_before_sending_witness :
  ([] : list request) = [] ∧
  ValueError ∈ [ValueError; AttributeError; KeyError] ∧
  (ValueError = ValueError ↔ Other = Other).
Proof.
  apply (init_fails_before_sending remote_ok "ck" "cs" [] Other false true
           [] []
           (Exc ValueError
              [JStr "API must be initialized with either a QuickbooksToken or User"])).
  reflexivity.
Defined.

Lemma init_client_invariants_witness :
  let self :=
    fresh_client "ck" "cs" (credential "QBO")
      QUICKBOOKS_ONLINE_V3_SANDBOX_URL_BASE in
  realm_id self = Models.realm_id (token self) ∧
  data_source self = Models.data_source (token self) ∧
  ((data_source self = "QBD" ∧
    url_base self = QUICKBOOKS_DESKTOP_V3_URL_BASE) ∨
   (data_source self = "QBO" ∧
    url_base self = QUICKBOOKS_ONLINE_V3_SANDBOX_URL_BASE)) ∧
  client_key (session self) = "ck" ∧
  client_secret (session self) = "cs" ∧
  resource_owner_key (session self) = Models.access_token (token self) ∧
  resource_owner_secret (session self)
  = Models.access_token_secret (token self) ∧
  Models.user (token self) = 7 ∧
  token self ∈ [other_credential; credential "QBO"].
Proof.
  intros self.
  apply (init_client_invariants remote_down "ck" "cs"
           [other_credential; credential "QBO"]
           (Owner {| Models.pk := 7; Models.is_authenticated := false |})
           true false [] [] self).
  reflexivity.
Defined.


(** With two rows of a user out of the order of their primary keys,
    [find_quickbooks_token] returns the row that comes first and the client
    is built from the row of least primary key. *)
Example owner_with_two_rows :
  Models.find_quickbooks_token [later_credential; credential "QBO"]
    (Models.AUser {| Models.pk := 7; Models.is_authenticated := true |})
  = Return (Some later_credential) ∧
  (__init__ remote_ok "ck" "cs" [later_credential; credential "QBO"]
     (Owner {| Models.pk := 7; Models.is_authenticated := true |})
     false false []).1
  = Return client_online.
Proof. split; reflexivity. Qed.

Lemma init_level_found_witness :
  __init__
    (remote_const
       (response_of 200 (company_info (JArr (pairing <$> sku_pairs)))))
    "ck" "cs" [] (Token (credential "QBO")) false true []
  = (Return (with_level client_online (JStr "QuickBooks Online Plus")),
     [level_request client_online]).
Proof.
  apply (init_level_found
           (remote_const
              (response_of 200 (company_info (JArr (pairing <$> sku_pairs)))))
           "ck" "cs" [] (credential "QBO") false []
           QUICKBOOKS_ONLINE_V3_URL_BASE
           (response_of 200 (company_info (JArr (pairing <$> sku_pairs))))
           sku_pairs);
    [reflexivity | reflexivity | discriminate | discriminate | reflexivity].
Defined.

Lemma init_probe_failure_witness :
  __init__ remote_ok "ck" "cs" [] (Token (credential "QBO")) false true []
  = (Return client_online, [level_request client_online]).
Proof.
  apply (init_probe_failure remote_ok "ck" "cs" [] (credential "QBO") false
           [] QUICKBOOKS_ONLINE_V3_URL_BASE
           (Exc KeyError [JStr "QueryResponse"]));
    reflexivity.
Defined.
